(** * X.509 extension objects of pyOpenSSL (OpenSSL/crypto/x509ext.c)

    A shallow embedding of the extension wrapper: the accessors
    [get_critical] and [get_data], the constructor
    [crypto_X509Extension_New], the destructor, and the two printing paths
    of [crypto_X509Extension_str], with the NUL-safe subjectAltName
    printer.  The functions of the cryptographic library and of the
    Python runtime that the file calls are an interface ([OpenSSL]) or
    small models of their documented behaviour. *)

From Stdlib Require Import List ZArith Lia Bool.
From Stdlib.Strings Require Import String Byte.
Import ListNotations.
Local Open Scope Z_scope.

(** ** Bytes, C strings and heap buffers *)

Definition byte := Byte.byte.
Definition NUL : byte := x00.

Definition is_NUL (b : byte) : bool := Byte.eqb b NUL.

(** A [char *] is modelled by the bytes found at the address.  The C
    string it denotes stops before the first NUL byte (or at the end of
    the modelled bytes). *)
Fixpoint c_str (p : list byte) : list byte :=
  match p with
  | [] => []
  | b :: p' => if is_NUL b then [] else b :: c_str p'
  end.

(** [size_t] quantities are natural numbers. *)
Definition strlen (p : list byte) : nat := List.length (c_str p).

(** A string literal of the source. *)
Definition lit (s : string) : list byte := list_byte_of_string s.

Definition NUL_free (p : list byte) : Prop := Forall (fun b => b <> NUL) p.

(** [malloc n] hands out [n] bytes of arbitrary content, here the content
    [junk] of the heap at that place. *)
Definition malloc_bytes (junk : nat -> byte) (n : nat) : list byte :=
  map junk (seq 0 n).

(** [strcpy (dst + off) src] copies the C string at [src] and its
    terminating NUL.  Writing past the end of [dst] is undefined
    behaviour: [None]. *)
Definition strcpy (dst : list byte) (off : nat) (src : list byte)
  : option (list byte) :=
  let s := c_str src ++ [NUL] in
  if (off + List.length s <=? List.length dst)%nat
  then Some (firstn off dst ++ s ++ skipn (off + List.length s) dst)
  else None.

(** Reading a buffer as a C string: the bytes before the first NUL;
    running off the end of the buffer is undefined behaviour. *)
Definition read_c_string (buf : list byte) : option (list byte) :=
  if existsb is_NUL buf then Some (c_str buf) else None.

(** ** Memory BIO *)

(** A memory BIO is the sequence of bytes written so far. *)
Definition BIO := list byte.

Definition BIO_new_mem : BIO := [].

(** [BIO_write bio p n] appends the [n] bytes at [p]. *)
Definition BIO_write (bio : BIO) (p : list byte) (n : Z) : BIO :=
  if n <=? 0 then bio else bio ++ firstn (Z.to_nat n) p.

(** [BIO_puts bio s] appends the C string at [s]: it stops at a NUL. *)
Definition BIO_puts (bio : BIO) (s : list byte) : BIO :=
  BIO_write bio s (Z.of_nat (strlen s)).

(** [BIO_get_mem_data bio &p] gives the length and the address of the
    accumulated bytes. *)
Definition BIO_get_mem_data (bio : BIO) : Z * list byte :=
  (Z.of_nat (List.length bio), bio).

(** ** ASN.1 and X.509 structures *)

Record ASN1_STRING := {
  ASN1_STRING_length : Z;
  ASN1_STRING_type : Z;
  ASN1_STRING_data : list byte
}.

Definition ASN1_OCTET_STRING := ASN1_STRING.

(** The byte range an ASN.1 string denotes: [length] bytes from [data]. *)
Definition ASN1_STRING_range (s : ASN1_STRING) : list byte :=
  firstn (Z.to_nat (ASN1_STRING_length s)) (ASN1_STRING_data s).

(** The library keeps [length] bytes (at least) behind [data]. *)
Definition ASN1_STRING_wf (s : ASN1_STRING) : Prop :=
  0 <= ASN1_STRING_length s <= Z.of_nat (List.length (ASN1_STRING_data s)).

Record ASN1_OBJECT := { oid_arcs : list Z }.

Record X509_EXTENSION := {
  ext_object : ASN1_OBJECT;
  ext_critical : Z;
  ext_value : ASN1_OCTET_STRING
}.

(** [GENERAL_NAME]: the [type] tag and the union [d] as one variant
    per tag.  The three IA5String kinds carry their [ASN1_STRING]; the
    others carry their encoded content. *)
Inductive GENERAL_NAME :=
| GEN_OTHERNAME (otherName : list byte)
| GEN_EMAIL (rfc822Name : ASN1_STRING)
| GEN_DNS (dNSName : ASN1_STRING)
| GEN_X400 (x400Address : list byte)
| GEN_DIRNAME (directoryName : list byte)
| GEN_EDIPARTY (ediPartyName : list byte)
| GEN_URI (uniformResourceIdentifier : ASN1_STRING)
| GEN_IPADD (iPAddress : ASN1_STRING)
| GEN_RID (registeredID : ASN1_OBJECT).

Definition GENERAL_NAMES := list GENERAL_NAME.

Definition sk_GENERAL_NAME_num (names : GENERAL_NAMES) : Z :=
  Z.of_nat (List.length names).

(** [sk_GENERAL_NAME_value] is NULL out of range. *)
Definition sk_GENERAL_NAME_value (names : GENERAL_NAMES) (i : Z)
  : option GENERAL_NAME :=
  if i <? 0 then None else nth_error names (Z.to_nat i).

Record X509 := { x509_der : list byte }.

Record crypto_X509Obj := { x509 : X509 }.

(** The evaluation context of the value-syntax interpreter. *)
Record X509V3_CTX := {
  ctx_flags : Z;
  issuer_cert : option X509;
  subject_cert : option X509;
  subject_req : option (list byte);
  ctx_crl : option (list byte);
  ctx_db : option (list byte)
}.

(** [X509V3_set_ctx ctx issuer subject req crl flags] writes the five
    fields and leaves the database as it was. *)
Definition X509V3_set_ctx (c : X509V3_CTX) (issuer subject : option X509)
    (req crl : option (list byte)) (flags : Z) : X509V3_CTX :=
  {| ctx_flags := flags; issuer_cert := issuer; subject_cert := subject;
     subject_req := req; ctx_crl := crl; ctx_db := ctx_db c |}.

(** [X509V3_set_ctx_nodb ctx]: no configuration database. *)
Definition X509V3_set_ctx_nodb (c : X509V3_CTX) : X509V3_CTX :=
  {| ctx_flags := ctx_flags c; issuer_cert := issuer_cert c;
     subject_cert := subject_cert c; subject_req := subject_req c;
     ctx_crl := ctx_crl c; ctx_db := None |}.

(** OpenSSL's error queue: the packed error codes, oldest first. *)
Definition err_queue := list Z.

Definition ASN1_ITEM := Z.

(** The value-syntax descriptor of an extension type: the ASN.1 template
    [it] when the type has one, and the older [d2i] decoder. *)
Record X509V3_EXT_METHOD := {
  ext_nid : Z;
  it : option ASN1_ITEM;
  d2i : list byte -> Z -> err_queue -> option GENERAL_NAMES * err_queue
}.

Definition NID_subject_alt_name : Z := 85.

(** ** The Python side *)

Inductive PyObject :=
| PyLong (n : Z)
| PyBytes (b : list byte)
| PyText (b : list byte).

Inductive py_exception :=
| MemoryError
| TypeError
| SystemError
| crypto_Error (errors : err_queue).

(** A C field that may not have been written yet. *)
Inductive cval (A : Type) :=
| Undef
| Def (a : A).
Arguments Undef {A}.
Arguments Def {A} a.

(** [crypto_X509ExtensionObj]: the wrapped [X509_EXTENSION *] (NULL is
    [Def None]) and the ownership flag [dealloc]. *)
Record crypto_X509ExtensionObj := {
  ob_refcnt : Z;
  x509_extension : cval (option X509_EXTENSION);
  dealloc : cval Z
}.

(** Calls that release or hand over a resource, in the order made. *)
Inductive event :=
| Ev_X509V3_EXT_nconf (ctx : X509V3_CTX) (name value : list byte)
| Ev_free
| Ev_X509_EXTENSION_free (p : cval (option X509_EXTENSION))
| Ev_PyObject_Del
| Ev_sk_GENERAL_NAME_pop_free
| Ev_BIO_free.

(** What a call can change outside its own variables: OpenSSL's error
    queue, Python's error indicator, and the record of releases. *)
Record world := {
  ossl_errors : err_queue;
  py_err : option py_exception;
  trace : list event
}.

Definition set_errors (q : err_queue) (w : world) : world :=
  {| ossl_errors := q; py_err := py_err w; trace := trace w |}.

Definition set_py_err (e : py_exception) (w : world) : world :=
  {| ossl_errors := ossl_errors w; py_err := Some e; trace := trace w |}.

Definition emit (ev : event) (w : world) : world :=
  {| ossl_errors := ossl_errors w; py_err := py_err w;
     trace := trace w ++ [ev] |}.

(** Modelled from the spec: [exception_from_error_queue] is defined in the
    repository's util.c, which is not among the sources; failures are
    reported as one Error "sourced from the cryptographic library's
    internal error queue", so it raises the given exception class with the
    queue's entries and leaves the queue empty. *)
Definition exception_from_error_queue (w : world) : world :=
  {| ossl_errors := [];
     py_err := Some (crypto_Error (ossl_errors w));
     trace := trace w |}.

(** Modelled from the spec: [PyText_FromStringAndSize] is a macro of the
    repository's py3k.h, which is not among the sources; the formatter
    "materializes" the buffered rendering "into a single string result",
    the [n] bytes at [p]. *)
Definition PyText_FromStringAndSize (p : list byte) (n : Z) : PyObject :=
  PyText (firstn (Z.to_nat n) p).

(** [PyBytes_FromStringAndSize p n]: the [n] bytes at [p]; a negative
    size is refused with SystemError.  The runtime's own allocation of a
    result object ([PyBytes], [PyLong], text) is taken to succeed; the
    two allocations whose failure the source tests are in
    [environment]. *)
Definition PyBytes_FromStringAndSize (p : list byte) (n : Z) (w : world)
  : option PyObject * world :=
  if n <? 0 then (None, set_py_err SystemError w)
  else (Some (PyBytes (firstn (Z.to_nat n) p)), w).

(** [PyArg_ParseTuple args ":name"]: the format takes no argument. *)
Definition PyArg_ParseTuple_none (args : list PyObject) (w : world)
  : bool * world :=
  match args with
  | [] => (true, w)
  | _ :: _ => (false, set_py_err TypeError w)
  end.

(** ** Constructor: arguments, surroundings and control state *)

(** The arguments of [crypto_X509Extension_New]. *)
Record New_args := {
  type_name : list byte;
  critical : Z;
  value : list byte;
  subject : option crypto_X509Obj;
  issuer : option crypto_X509Obj
}.

(** What the surroundings decide: whether the two allocations succeed,
    and the content of fresh heap and stack memory. *)
Record environment := {
  PyObject_New_ok : bool;
  malloc_ok : bool;
  heap_junk : nat -> byte;
  stack_junk : X509V3_CTX
}.

(** The statements of [crypto_X509Extension_New], by source line, and the
    two ways to stop. *)
Inductive label :=
| L113_set_ctx
| L119_set_ctx_nodb
| L126_if_subject
| L130_if_issuer
| L134_PyObject_New
| L136_if_self_NULL
| L140_dealloc_0
| L149_malloc
| L150_if_malloc_NULL
| L154_if_critical
| L155_strcpy_marker
| L156_strcpy_value
| L158_strcpy_value
| L161_nconf
| L164_free
| L166_if_ext_NULL
| L170_dealloc_1
| L171_return_self
| L174_nconf_error
| L177_critical_malloc_error
| L180_error
| Returned
| Fault.

(** The locals [ctx], [self], [value_with_critical], the world, and the
    returned pointer once the function has returned. *)
Record New_state := {
  st_pc : label;
  st_ctx : X509V3_CTX;
  st_self : option crypto_X509ExtensionObj;
  st_value_with_critical : option (list byte);
  st_world : world;
  st_result : option crypto_X509ExtensionObj
}.

Definition goto (l : label) (s : New_state) : New_state :=
  {| st_pc := l; st_ctx := st_ctx s; st_self := st_self s;
     st_value_with_critical := st_value_with_critical s;
     st_world := st_world s; st_result := st_result s |}.

Definition with_ctx (c : X509V3_CTX) (s : New_state) : New_state :=
  {| st_pc := st_pc s; st_ctx := c; st_self := st_self s;
     st_value_with_critical := st_value_with_critical s;
     st_world := st_world s; st_result := st_result s |}.

Definition with_self (o : option crypto_X509ExtensionObj) (s : New_state)
  : New_state :=
  {| st_pc := st_pc s; st_ctx := st_ctx s; st_self := o;
     st_value_with_critical := st_value_with_critical s;
     st_world := st_world s; st_result := st_result s |}.

Definition with_buffer (b : option (list byte)) (s : New_state) : New_state :=
  {| st_pc := st_pc s; st_ctx := st_ctx s; st_self := st_self s;
     st_value_with_critical := b;
     st_world := st_world s; st_result := st_result s |}.

Definition with_world (w : world) (s : New_state) : New_state :=
  {| st_pc := st_pc s; st_ctx := st_ctx s; st_self := st_self s;
     st_value_with_critical := st_value_with_critical s;
     st_world := w; st_result := st_result s |}.

Definition with_result (r : option crypto_X509ExtensionObj) (s : New_state)
  : New_state :=
  {| st_pc := st_pc s; st_ctx := st_ctx s; st_self := st_self s;
     st_value_with_critical := st_value_with_critical s;
     st_world := st_world s; st_result := r |}.

Definition set_dealloc (flag : Z) (o : crypto_X509ExtensionObj)
  : crypto_X509ExtensionObj :=
  {| ob_refcnt := ob_refcnt o; x509_extension := x509_extension o;
     dealloc := Def flag |}.

Definition set_x509_extension (p : option X509_EXTENSION)
    (o : crypto_X509ExtensionObj) : crypto_X509ExtensionObj :=
  {| ob_refcnt := ob_refcnt o; x509_extension := Def p;
     dealloc := dealloc o |}.

Definition set_refcnt (n : Z) (o : crypto_X509ExtensionObj)
  : crypto_X509ExtensionObj :=
  {| ob_refcnt := n; x509_extension := x509_extension o;
     dealloc := dealloc o |}.

Definition initial_state (e : environment) (w : world) : New_state :=
  {| st_pc := L113_set_ctx; st_ctx := stack_junk e; st_self := None;
     st_value_with_critical := None; st_world := w; st_result := None |}.

(** ** The cryptographic library *)

(** The functions of OpenSSL that the file calls and whose result is not
    fixed by the structures above.  A call that can fail takes the error
    queue and returns it with what it pushed.  The text printers write
    to the memory BIO only by appending: they are given by the bytes
    they emit. *)
Class OpenSSL := {
  OBJ_obj2nid : ASN1_OBJECT -> Z;
  X509V3_EXT_nconf :
    X509V3_CTX -> list byte -> list byte -> err_queue ->
    option X509_EXTENSION * err_queue;
  X509V3_EXT_get : X509_EXTENSION -> option X509V3_EXT_METHOD;
  ASN1_item_d2i :
    list byte -> Z -> ASN1_ITEM -> err_queue ->
    option GENERAL_NAMES * err_queue;
  GENERAL_NAME_print_text : GENERAL_NAME -> list byte;
  X509V3_EXT_print_text :
    X509_EXTENSION -> Z -> Z -> err_queue -> (Z * list byte) * err_queue
}.

(** [X509_EXTENSION_get_critical]: 1 when the critical field is set. *)
Definition X509_EXTENSION_get_critical (ex : option X509_EXTENSION) : Z :=
  match ex with
  | None => 0
  | Some e => if ext_critical e >? 0 then 1 else 0
  end.

Definition X509_EXTENSION_get_data (ex : X509_EXTENSION)
  : ASN1_OCTET_STRING := ext_value ex.

Section Extension.

Context {lib : OpenSSL}.

Definition GENERAL_NAME_print (bio : BIO) (name : GENERAL_NAME) : BIO :=
  bio ++ GENERAL_NAME_print_text name.

(** [X509V3_EXT_print bio ext flag indent]: the status, the BIO and the
    error queue after the call. *)
Definition X509V3_EXT_print (bio : BIO) (ext : X509_EXTENSION)
    (flag indent : Z) (q : err_queue) : Z * BIO * err_queue :=
  let '((ok, text), q') := X509V3_EXT_print_text ext flag indent q in
  (ok, bio ++ text, q').

(** ** Accessors *)

Definition crypto_X509Extension_get_critical
    (self : crypto_X509ExtensionObj) (args : list PyObject) (w : world)
  : option (option PyObject * world) :=
  let '(ok, w1) := PyArg_ParseTuple_none args w in
  if negb ok then Some (None, w1)
  else
    match x509_extension self with
    | Undef => None
    | Def p => Some (Some (PyLong (X509_EXTENSION_get_critical p)), w1)
    end.

Definition crypto_X509Extension_get_data
    (self : crypto_X509ExtensionObj) (args : list PyObject) (w : world)
  : option (option PyObject * world) :=
  let '(ok, w1) := PyArg_ParseTuple_none args w in
  if negb ok then Some (None, w1)
  else
    match x509_extension self with
    | Def (Some ex) =>
        let data := X509_EXTENSION_get_data ex in
        Some (PyBytes_FromStringAndSize
                (ASN1_STRING_data data) (ASN1_STRING_length data) w1)
    | _ => None
    end.

(** ** Destructor *)

(** Reading the flag before it was written is undefined: [None]. *)
Definition crypto_X509Extension_dealloc
    (self : crypto_X509ExtensionObj) (w : world) : option world :=
  match dealloc self with
  | Undef => None
  | Def flag =>
      let w1 :=
        if flag =? 0 then w
        else emit (Ev_X509_EXTENSION_free (x509_extension self)) w in
      Some (emit Ev_PyObject_Del w1)
  end.

(** ** Constructor *)

(** [Py_XDECREF]: nothing for NULL; the destructor runs when the count
    reaches zero. *)
Definition Py_XDECREF (o : option crypto_X509ExtensionObj) (w : world)
  : option (option crypto_X509ExtensionObj * world) :=
  match o with
  | None => Some (None, w)
  | Some ob =>
      let ob := set_refcnt (ob_refcnt ob - 1) ob in
      if ob_refcnt ob =? 0 then
        match crypto_X509Extension_dealloc ob w with
        | None => None
        | Some w => Some (Some ob, w)
        end
      else Some (Some ob, w)
  end.

(** One statement of [crypto_X509Extension_New]. *)
Definition step (a : New_args) (e : environment) (s : New_state)
  : New_state :=
  match st_pc s with
  | L113_set_ctx =>
      goto L119_set_ctx_nodb
        (with_ctx (X509V3_set_ctx (st_ctx s) None None None None 0) s)
  | L119_set_ctx_nodb =>
      goto L126_if_subject (with_ctx (X509V3_set_ctx_nodb (st_ctx s)) s)
  | L126_if_subject =>
      let c := st_ctx s in
      goto L130_if_issuer
        match subject a with
        | Some sub =>
            with_ctx {| ctx_flags := ctx_flags c;
                        issuer_cert := issuer_cert c;
                        subject_cert := Some (x509 sub);
                        subject_req := subject_req c;
                        ctx_crl := ctx_crl c; ctx_db := ctx_db c |} s
        | None => s
        end
  | L130_if_issuer =>
      let c := st_ctx s in
      goto L134_PyObject_New
        match issuer a with
        | Some iss =>
            with_ctx {| ctx_flags := ctx_flags c;
                        issuer_cert := Some (x509 iss);
                        subject_cert := subject_cert c;
                        subject_req := subject_req c;
                        ctx_crl := ctx_crl c; ctx_db := ctx_db c |} s
        | None => s
        end
  | L134_PyObject_New =>
      goto L136_if_self_NULL
        (if PyObject_New_ok e then
           with_self (Some {| ob_refcnt := 1; x509_extension := Undef;
                              dealloc := Undef |}) s
         else
           with_world (set_py_err MemoryError (st_world s))
             (with_self None s))
  | L136_if_self_NULL =>
      match st_self s with
      | None => goto L180_error s
      | Some _ => goto L140_dealloc_0 s
      end
  | L140_dealloc_0 =>
      match st_self s with
      | None => goto Fault s
      | Some o => goto L149_malloc (with_self (Some (set_dealloc 0 o)) s)
      end
  | L149_malloc =>
      let n := (strlen (lit "critical,") + strlen (value a) + 1)%nat in
      goto L150_if_malloc_NULL
        (with_buffer
           (if malloc_ok e then Some (malloc_bytes (heap_junk e) n)
            else None) s)
  | L150_if_malloc_NULL =>
      match st_value_with_critical s with
      | None => goto L177_critical_malloc_error s
      | Some _ => goto L154_if_critical s
      end
  | L154_if_critical =>
      if critical a =? 0 then goto L158_strcpy_value s
      else goto L155_strcpy_marker s
  | L155_strcpy_marker =>
      match st_value_with_critical s with
      | None => goto Fault s
      | Some buf =>
          match strcpy buf 0 (lit "critical,") with
          | None => goto Fault s
          | Some buf => goto L156_strcpy_value (with_buffer (Some buf) s)
          end
      end
  | L156_strcpy_value =>
      match st_value_with_critical s with
      | None => goto Fault s
      | Some buf =>
          match strcpy buf (strlen (lit "critical,")) (value a) with
          | None => goto Fault s
          | Some buf => goto L161_nconf (with_buffer (Some buf) s)
          end
      end
  | L158_strcpy_value =>
      match st_value_with_critical s with
      | None => goto Fault s
      | Some buf =>
          match strcpy buf 0 (value a) with
          | None => goto Fault s
          | Some buf => goto L161_nconf (with_buffer (Some buf) s)
          end
      end
  | L161_nconf =>
      match st_self s, st_value_with_critical s with
      | Some o, Some buf =>
          match read_c_string buf with
          | None => goto Fault s
          | Some str =>
              let w := st_world s in
              let name := c_str (type_name a) in
              let '(ext, q) :=
                X509V3_EXT_nconf (st_ctx s) name str (ossl_errors w) in
              let w := emit (Ev_X509V3_EXT_nconf (st_ctx s) name str)
                         (set_errors q w) in
              goto L164_free
                (with_world w (with_self (Some (set_x509_extension ext o)) s))
          end
      | _, _ => goto Fault s
      end
  | L164_free =>
      (* free(value_with_critical): the pointer is not NULL here *)
      goto L166_if_ext_NULL (with_world (emit Ev_free (st_world s)) s)
  | L166_if_ext_NULL =>
      match st_self s with
      | None => goto Fault s
      | Some o =>
          match x509_extension o with
          | Undef => goto Fault s
          | Def None => goto L174_nconf_error s
          | Def (Some _) => goto L170_dealloc_1 s
          end
      end
  | L170_dealloc_1 =>
      match st_self s with
      | None => goto Fault s
      | Some o => goto L171_return_self (with_self (Some (set_dealloc 1 o)) s)
      end
  | L171_return_self =>
      goto Returned (with_result (st_self s) s)
  | L174_nconf_error =>
      goto L177_critical_malloc_error
        (with_world (exception_from_error_queue (st_world s)) s)
  | L177_critical_malloc_error =>
      match Py_XDECREF (st_self s) (st_world s) with
      | None => goto Fault s
      | Some (o, w) => goto L180_error (with_world w (with_self o s))
      end
  | L180_error =>
      goto Returned (with_result None s)
  | Returned => s
  | Fault => s
  end.

Definition stopped (l : label) : bool :=
  match l with
  | Returned | Fault => true
  | _ => false
  end.

Fixpoint run (fuel : nat) (a : New_args) (e : environment) (s : New_state)
  : New_state :=
  match fuel with
  | O => s
  | S fuel' => if stopped (st_pc s) then s else run fuel' a e (step a e s)
  end.

(** The states the function passes through. *)
Inductive reachable (a : New_args) (e : environment) (w : world)
  : New_state -> Prop :=
| reach_start : reachable a e w (initial_state e w)
| reach_step s : reachable a e w s -> reachable a e w (step a e s).

(** The function: the returned pointer (NULL is [None]) and the world it
    leaves; [None] when it did not return normally. *)
Definition crypto_X509Extension_New (a : New_args) (e : environment)
    (w : world) : option (option crypto_X509ExtensionObj * world) :=
  let s := run 32 a e (initial_state e w) in
  match st_pc s with
  | Returned => Some (st_result s, st_world s)
  | _ => None
  end.

(** ** The subjectAltName printer *)

(** The body of the [switch] on [name->type]. *)
Definition print_name (bio : BIO) (name : GENERAL_NAME) : BIO :=
  match name with
  | GEN_EMAIL as_ =>
      let bio := BIO_puts bio (lit "email:") in
      BIO_write bio (ASN1_STRING_data as_) (ASN1_STRING_length as_)
  | GEN_DNS as_ =>
      let bio := BIO_puts bio (lit "DNS:") in
      BIO_write bio (ASN1_STRING_data as_) (ASN1_STRING_length as_)
  | GEN_URI as_ =>
      let bio := BIO_puts bio (lit "URI:") in
      BIO_write bio (ASN1_STRING_data as_) (ASN1_STRING_length as_)
  | _ => GENERAL_NAME_print bio name
  end.

(** [for (i = ...; i < num; i++)], with [todo] the iterations that remain;
    [None] when [sk_GENERAL_NAME_value] gives NULL and is dereferenced. *)
Fixpoint names_loop (todo : nat) (i num : Z) (names : GENERAL_NAMES)
    (bio : BIO) : option BIO :=
  match todo with
  | O => Some bio
  | S todo' =>
      if i <? num then
        match sk_GENERAL_NAME_value names i with
        | None => None
        | Some name =>
            let bio := print_name bio name in
            let bio := if i <? num - 1 then BIO_puts bio (lit ", ") else bio in
            names_loop todo' (i + 1) num names bio
        end
      else Some bio
  end.

(** The decoding step: through the template when the descriptor has one,
    through its [d2i] otherwise. *)
Definition decode_names (method : X509V3_EXT_METHOD) (p : list byte)
    (length : Z) (q : err_queue) : option GENERAL_NAMES * err_queue :=
  match it method with
  | Some item => ASN1_item_d2i p length item q
  | None => d2i method p length q
  end.

Definition crypto_X509Extension_str_subjectAltName
    (self : crypto_X509ExtensionObj) (bio : BIO) (w : world)
  : option (Z * BIO * world) :=
  match x509_extension self with
  | Def (Some ext) =>
      match X509V3_EXT_get ext with
      | None => Some (-1, bio, w)
      | Some method =>
          let p := ASN1_STRING_data (ext_value ext) in
          let length := ASN1_STRING_length (ext_value ext) in
          let '(names, q) := decode_names method p length (ossl_errors w) in
          let w := set_errors q w in
          match names with
          | None => Some (-1, bio, w)
          | Some names =>
              let num := sk_GENERAL_NAME_num names in
              match names_loop (Z.to_nat num) 0 num names bio with
              | None => None
              | Some bio =>
                  Some (0, bio, emit Ev_sk_GENERAL_NAME_pop_free w)
              end
          end
      end
  | _ => None
  end.

(** ** [str] *)

Definition crypto_X509Extension_str
    (self : crypto_X509ExtensionObj) (w : world)
  : option (option PyObject * world) :=
  let bio := BIO_new_mem in
  match x509_extension self with
  | Def (Some ext) =>
      (* the two printing branches: [Some (failed, bio, w)] *)
      let printed :=
        if OBJ_obj2nid (ext_object ext) =? NID_subject_alt_name then
          match crypto_X509Extension_str_subjectAltName self bio w with
          | None => None
          | Some (rc, bio, w) => Some (rc =? -1, bio, w)
          end
        else
          let '(ok, bio, q) := X509V3_EXT_print bio ext 0 0 (ossl_errors w) in
          Some (ok =? 0, bio, set_errors q w) in
      match printed with
      | None => None
      | Some (true, bio, w) =>
          let w := emit Ev_BIO_free w in
          Some (None, exception_from_error_queue w)
      | Some (false, bio, w) =>
          let '(str_len, tmp_str) := BIO_get_mem_data bio in
          let str := PyText_FromStringAndSize tmp_str str_len in
          Some (Some str, emit Ev_BIO_free w)
      end
  | _ => None
  end.


(** ** The rendering the specification describes *)

(** The text of one entry: a literal prefix and the exact byte range for
    email, DNS and URI names, the library's single-name printer for the
    other kinds. *)
Definition entry_text (name : GENERAL_NAME) : list byte :=
  match name with
  | GEN_EMAIL s => lit "email:" ++ ASN1_STRING_range s
  | GEN_DNS s => lit "DNS:" ++ ASN1_STRING_range s
  | GEN_URI s => lit "URI:" ++ ASN1_STRING_range s
  | _ => GENERAL_NAME_print_text name
  end.

(** The texts in order, the separator between successive ones only. *)
Fixpoint join (sep : list byte) (texts : list (list byte)) : list byte :=
  match texts with
  | [] => []
  | [t] => t
  | t :: rest => t ++ sep ++ join sep rest
  end.

Definition render_names (names : GENERAL_NAMES) : list byte :=
  join (lit ", ") (map entry_text names).

(** The prefix and string of an email, DNS or URI entry. *)
Definition text_name (name : GENERAL_NAME)
  : option (list byte * ASN1_STRING) :=
  match name with
  | GEN_EMAIL s => Some (lit "email:", s)
  | GEN_DNS s => Some (lit "DNS:", s)
  | GEN_URI s => Some (lit "URI:", s)
  | _ => None
  end.

(** The separator that follows (or precedes) a non-empty run of entries. *)
Definition sep_unless_empty (names : GENERAL_NAMES) : list byte :=
  match names with
  | [] => []
  | _ :: _ => lit ", "
  end.

(** What [str] does once a branch has printed into the BIO. *)
Definition finish_str (failed : bool) (bio : BIO) (w : world)
  : option PyObject * world :=
  if failed then (None, exception_from_error_queue (emit Ev_BIO_free w))
  else (Some (PyText bio), emit Ev_BIO_free w).

(** The subjectAltName path of [str]. *)
Definition san_path (self : crypto_X509ExtensionObj) (w : world)
  : option (option PyObject * world) :=
  match crypto_X509Extension_str_subjectAltName self BIO_new_mem w with
  | None => None
  | Some (rc, bio, w) => Some (finish_str (rc =? -1) bio w)
  end.

(** The generic path of [str]: the library's extension printer with flag
    0 and indentation 0. *)
Definition generic_path (ext : X509_EXTENSION) (w : world)
  : option (option PyObject * world) :=
  let '((ok, text), q) := X509V3_EXT_print_text ext 0 0 (ossl_errors w) in
  Some (finish_str (ok =? 0) text (set_errors q w)).

End Extension.

(** ** The criticality marker *)

Fixpoint starts_with (p s : list byte) : bool :=
  match p, s with
  | [], _ => true
  | _ :: _, [] => false
  | a :: p', b :: s' => Byte.eqb a b && starts_with p' s'
  end.

(** The contract of the value-syntax interpreter on criticality: the
    extension it builds is critical exactly when the text it was given
    begins with the marker. *)
Definition honours_critical_marker (lib : OpenSSL) : Prop :=
  forall ctx name v q ex q',
    X509V3_EXT_nconf ctx name v q = (Some ex, q') ->
    X509_EXTENSION_get_critical (Some ex)
    = if starts_with (lit "critical,") v then 1 else 0.

(** The context the constructor builds from its arguments. *)
Definition New_ctx (a : New_args) : X509V3_CTX :=
  {| ctx_flags := 0;
     issuer_cert := option_map x509 (issuer a);
     subject_cert := option_map x509 (subject a);
     subject_req := None; ctx_crl := None; ctx_db := None |}.

(** The text the specification says is passed to the interpreter. *)
Definition value_passed (a : New_args) : list byte :=
  if critical a =? 0 then c_str (value a)
  else lit "critical," ++ c_str (value a).

(** The constructor in one piece: what it returns and the world it
    leaves, case by case. *)
Definition New_outcome {lib : OpenSSL} (a : New_args) (e : environment)
    (w : world) : option crypto_X509ExtensionObj * world :=
  if negb (PyObject_New_ok e) then (None, set_py_err MemoryError w)
  else if negb (malloc_ok e) then (None, emit Ev_PyObject_Del w)
  else
    let name := c_str (type_name a) in
    let '(ext, q) :=
      X509V3_EXT_nconf (New_ctx a) name (value_passed a) (ossl_errors w) in
    let w1 :=
      emit Ev_free
        (emit (Ev_X509V3_EXT_nconf (New_ctx a) name (value_passed a))
           (set_errors q w)) in
    match ext with
    | Some ex =>
        (Some {| ob_refcnt := 1; x509_extension := Def (Some ex);
                 dealloc := Def 1 |}, w1)
    | None => (None, emit Ev_PyObject_Del (exception_from_error_queue w1))
    end.

Definition is_Ev_X509_EXTENSION_free (ev : event) : bool :=
  match ev with
  | Ev_X509_EXTENSION_free _ => true
  | _ => false
  end.

Definition is_Ev_X509V3_EXT_nconf (ev : event) : bool :=
  match ev with
  | Ev_X509V3_EXT_nconf _ _ _ => true
  | _ => false
  end.

(** What is known of the ownership flag at each statement of the
    constructor. *)
Definition flag_invariant (s : New_state) : Prop :=
  match st_pc s with
  | L113_set_ctx | L119_set_ctx_nodb | L126_if_subject | L130_if_issuer
  | L134_PyObject_New =>
      st_self s = None
  | L136_if_self_NULL | L140_dealloc_0 =>
      forall o, st_self s = Some o -> dealloc o = Undef
  | L170_dealloc_1 =>
      forall o, st_self s = Some o ->
        dealloc o = Def 0 /\ exists ex, x509_extension o = Def (Some ex)
  | L171_return_self =>
      forall o, st_self s = Some o ->
        dealloc o = Def 1 /\ exists ex, x509_extension o = Def (Some ex)
  | Returned =>
      forall o, st_self s = Some o ->
        (dealloc o = Def 0 /\ st_result s = None)
        \/ (dealloc o = Def 1 /\ st_result s = Some o
            /\ exists ex, x509_extension o = Def (Some ex))
  | _ =>
      forall o, st_self s = Some o -> dealloc o = Def 0
  end.

(** ** A small instance of the library

    Enough of the library to run the functions on concrete inputs: the
    interpreter for basicConstraints with its handling of the criticality
    marker, a decoder of GeneralNames with short lengths, and the
    printers. *)
Module Demo.

Fixpoint bytes_eqb (x y : list byte) : bool :=
  match x, y with
  | [], [] => true
  | a :: x', b :: y' => Byte.eqb a b && bytes_eqb x' y'
  | _, _ => false
  end.

Definition isspace (b : byte) : bool :=
  match b with
  | x20 | x09 | x0a | x0b | x0c | x0d => true
  | _ => false
  end.

Fixpoint skip_spaces (p : list byte) : list byte :=
  match p with
  | b :: p' => if isspace b then skip_spaces p' else p
  | [] => []
  end.

(** The interpreter's test for the marker: it is taken off the value,
    with the white space after it. *)
Definition v3_check_critical (value : list byte) : bool * list byte :=
  if starts_with (lit "critical,") value
  then (true, skip_spaces (skipn 9 value))
  else (false, value).

Definition oid_subject_alt_name : list Z := [2; 5; 29; 17].
Definition oid_basic_constraints : list Z := [2; 5; 29; 19].
Definition NID_basic_constraints : Z := 87.

Definition X509V3_R_UNKNOWN_EXTENSION_NAME : Z := 0x22097082.
Definition X509V3_R_INVALID_EXTENSION_STRING : Z := 0x2208006e.
Definition ASN1_R_WRONG_TAG : Z := 0x0d0680a8.
Definition X509V3_R_UNKNOWN_EXTENSION : Z := 0x22093081.

Definition octets (payload : list byte) : ASN1_OCTET_STRING :=
  {| ASN1_STRING_length := Z.of_nat (List.length payload);
     ASN1_STRING_type := 4;
     ASN1_STRING_data := payload ++ [NUL] |}.

Definition ia5 (text : list byte) : ASN1_STRING :=
  {| ASN1_STRING_length := Z.of_nat (List.length text);
     ASN1_STRING_type := 22;
     ASN1_STRING_data := text ++ [NUL] |}.

Definition mk_ext (oid : list Z) (crit : bool) (payload : list byte)
  : X509_EXTENSION :=
  {| ext_object := {| oid_arcs := oid |};
     ext_critical := if crit then 255 else -1;
     ext_value := octets payload |}.

Definition nconf (ctx : X509V3_CTX) (name value : list byte)
    (q : err_queue) : option X509_EXTENSION * err_queue :=
  let '(crit, v) := v3_check_critical value in
  if bytes_eqb name (lit "basicConstraints") then
    if bytes_eqb v (lit "CA:TRUE") then
      (Some (mk_ext oid_basic_constraints crit [x30; x03; x01; x01; xff]), q)
    else if bytes_eqb v (lit "CA:FALSE") then
      (Some (mk_ext oid_basic_constraints crit [x30; x00]), q)
    else (None, q ++ [X509V3_R_INVALID_EXTENSION_STRING])
  else (None, q ++ [X509V3_R_UNKNOWN_EXTENSION_NAME]).

Definition obj2nid (o : ASN1_OBJECT) : Z :=
  if list_eq_dec Z.eq_dec (oid_arcs o) oid_subject_alt_name
  then NID_subject_alt_name
  else if list_eq_dec Z.eq_dec (oid_arcs o) oid_basic_constraints
  then NID_basic_constraints
  else 0.

Definition GENERAL_NAMES_it : ASN1_ITEM := 1.
Definition BASIC_CONSTRAINTS_it : ASN1_ITEM := 2.

Definition no_d2i (p : list byte) (n : Z) (q : err_queue)
  : option GENERAL_NAMES * err_queue := (None, q).

Definition ext_get (ext : X509_EXTENSION) : option X509V3_EXT_METHOD :=
  let nid := obj2nid (ext_object ext) in
  if nid =? NID_subject_alt_name then
    Some {| ext_nid := nid; it := Some GENERAL_NAMES_it; d2i := no_d2i |}
  else if nid =? NID_basic_constraints then
    Some {| ext_nid := nid; it := Some BASIC_CONSTRAINTS_it; d2i := no_d2i |}
  else None.

Definition tagged (tag : byte) (text : list byte) : option GENERAL_NAME :=
  match tag with
  | x81 => Some (GEN_EMAIL (ia5 text))
  | x82 => Some (GEN_DNS (ia5 text))
  | x86 => Some (GEN_URI (ia5 text))
  | x87 => Some (GEN_IPADD (octets text))
  | _ => None
  end.

(** The entries of a GeneralNames body: context tag, short length,
    content. *)
Fixpoint der_entries (fuel : nat) (p : list byte) : option GENERAL_NAMES :=
  match fuel, p with
  | _, [] => Some []
  | S fuel', tag :: len :: rest =>
      let n := Byte.to_nat len in
      if ((n <? 128) && (n <=? List.length rest))%nat then
        match tagged tag (firstn n rest), der_entries fuel' (skipn n rest) with
        | Some name, Some names => Some (name :: names)
        | _, _ => None
        end
      else None
  | _, _ => None
  end.

Definition der_names (p : list byte) : option GENERAL_NAMES :=
  match p with
  | x30 :: len :: body =>
      if ((Byte.to_nat len <? 128)
          && (Byte.to_nat len =? List.length body))%nat
      then der_entries (List.length body) body
      else None
  | _ => None
  end.

Definition item_d2i (p : list byte) (length : Z) (item : ASN1_ITEM)
    (q : err_queue) : option GENERAL_NAMES * err_queue :=
  if item =? GENERAL_NAMES_it then
    match der_names (firstn (Z.to_nat length) p) with
    | Some names => (Some names, q)
    | None => (None, q ++ [ASN1_R_WRONG_TAG])
    end
  else (None, q ++ [ASN1_R_WRONG_TAG]).

(** The single-name printer: the three text kinds through a C-string
    format (it stops at a NUL), the others by a fixed text. *)
Definition name_print_text (name : GENERAL_NAME) : list byte :=
  match name with
  | GEN_OTHERNAME _ => lit "othername:<unsupported>"
  | GEN_X400 _ => lit "X400Name:<unsupported>"
  | GEN_EDIPARTY _ => lit "EdiPartyName:<unsupported>"
  | GEN_EMAIL s => lit "email:" ++ c_str (ASN1_STRING_data s)
  | GEN_DNS s => lit "DNS:" ++ c_str (ASN1_STRING_data s)
  | GEN_URI s => lit "URI:" ++ c_str (ASN1_STRING_data s)
  | GEN_DIRNAME _ => lit "DirName:<unsupported>"
  | GEN_IPADD _ => lit "IP Address:<invalid>"
  | GEN_RID _ => lit "Registered ID:<unsupported>"
  end.

Definition ext_print_text (ext : X509_EXTENSION) (flag indent : Z)
    (q : err_queue) : (Z * list byte) * err_queue :=
  if obj2nid (ext_object ext) =? NID_basic_constraints then
    if bytes_eqb (ASN1_STRING_range (ext_value ext))
         [x30; x03; x01; x01; xff]
    then ((1, lit "CA:TRUE"), q)
    else ((1, lit "CA:FALSE"), q)
  else ((0, []), q ++ [X509V3_R_UNKNOWN_EXTENSION]).

Definition library : OpenSSL :=
  {| OBJ_obj2nid := obj2nid;
     X509V3_EXT_nconf := nconf;
     X509V3_EXT_get := ext_get;
     ASN1_item_d2i := item_d2i;
     GENERAL_NAME_print_text := name_print_text;
     X509V3_EXT_print_text := ext_print_text |}.

Definition world0 : world :=
  {| ossl_errors := []; py_err := None; trace := [] |}.

Definition env_ok : environment :=
  {| PyObject_New_ok := true; malloc_ok := true;
     heap_junk := fun _ => xaa;
     stack_junk := {| ctx_flags := 7; issuer_cert := None;
                      subject_cert := None; subject_req := None;
                      ctx_crl := None; ctx_db := Some [x01] |} |}.

Definition env_malloc_fails : environment :=
  {| PyObject_New_ok := true; malloc_ok := false;
     heap_junk := heap_junk env_ok; stack_junk := stack_junk env_ok |}.

Definition args (name : string) (crit : Z) (val : string) : New_args :=
  {| type_name := lit name; critical := crit;
     value := lit val; subject := None; issuer := None |}.

(** An object that wraps the extension [ext] and owns it. *)
Definition wrap (ext : X509_EXTENSION) : crypto_X509ExtensionObj :=
  {| ob_refcnt := 1; x509_extension := Def (Some ext); dealloc := Def 1 |}.

(** A subjectAltName extension with the given payload. *)
Definition san_ext (payload : list byte) : X509_EXTENSION :=
  mk_ext oid_subject_alt_name false payload.

(** GeneralNames: email a@b, DNS c.d, URI e:f. *)
Definition three_names_der : list byte :=
  [x30; x0f] ++ [x81; x03] ++ lit "a@b" ++ [x82; x03] ++ lit "c.d"
             ++ [x86; x03] ++ lit "e:f".

(** The three entries of the specification's ordering example, and
    their encoding. *)
Definition example_names : GENERAL_NAMES :=
  [GEN_EMAIL (ia5 (lit "a@example.com"));
   GEN_DNS (ia5 (lit "example.com"));
   GEN_URI (ia5 (lit "https://example.com"))].

Definition example_der : list byte :=
  [x30; x31] ++ [x81; x0d] ++ lit "a@example.com"
             ++ [x82; x0b] ++ lit "example.com"
             ++ [x86; x13] ++ lit "https://example.com".

(** GeneralNames: one DNS name with a NUL byte in it. *)
Definition nul_name : list byte := lit "safe.org" ++ [NUL] ++ lit "evil.org".

Definition nul_name_der : list byte :=
  [x30; x13; x82; x11] ++ nul_name.

End Demo.

(** ** The short name *)

(** The registry's table from NID to short name: [OBJ_nid2sn] gives NULL
    for a NID it does not know. *)
Class OBJ_names := {
  OBJ_nid2sn : Z -> option (list byte)
}.

Definition NID_undef : Z := 0.

(** [X509_EXTENSION_get_object] gives NULL for NULL, and [OBJ_obj2nid]
    gives [NID_undef] for NULL. *)
Definition X509_EXTENSION_get_object (ex : option X509_EXTENSION)
  : option ASN1_OBJECT := option_map ext_object ex.

Definition OBJ_obj2nid_ptr {lib : OpenSSL} (obj : option ASN1_OBJECT) : Z :=
  match obj with
  | None => NID_undef
  | Some o => OBJ_obj2nid o
  end.

(** [PyBytes_FromString p]: the C string at [p]; it calls [strlen] on
    its argument, so NULL is dereferenced: [None]. *)
Definition PyBytes_FromString (p : option (list byte)) : option PyObject :=
  match p with
  | None => None
  | Some s => Some (PyBytes (firstn (strlen s) s))
  end.

Definition crypto_X509Extension_get_short_name
    {lib : OpenSSL} {names : OBJ_names}
    (self : crypto_X509ExtensionObj) (args : list PyObject) (w : world)
  : option (option PyObject * world) :=
  let '(ok, w1) := PyArg_ParseTuple_none args w in
  if negb ok then Some (None, w1)
  else
    match x509_extension self with
    | Undef => None
    | Def p =>
        let obj := X509_EXTENSION_get_object p in
        let extname := OBJ_nid2sn (OBJ_obj2nid_ptr obj) in
        match PyBytes_FromString extname with
        | None => None
        | Some r => Some (Some r, w1)
        end
    end.

(** ** Module initialisation *)









(** ** Counting the recorded calls *)

Definition count (p : event -> bool) (l : list event) : nat :=
  List.length (filter p l).

Definition is_Ev_free (ev : event) : bool :=
  match ev with
  | Ev_free => true
  | _ => false
  end.

Definition is_Ev_PyObject_Del (ev : event) : bool :=
  match ev with
  | Ev_PyObject_Del => true
  | _ => false
  end.

(** The statements still to run, at most, from each label. *)
Definition remaining (l : label) : nat :=
  match l with
  | L113_set_ctx => 18
  | L119_set_ctx_nodb => 17
  | L126_if_subject => 16
  | L130_if_issuer => 15
  | L134_PyObject_New => 14
  | L136_if_self_NULL => 13
  | L140_dealloc_0 => 12
  | L149_malloc => 11
  | L150_if_malloc_NULL => 10
  | L154_if_critical => 9
  | L155_strcpy_marker => 8
  | L156_strcpy_value => 7
  | L158_strcpy_value => 7
  | L161_nconf => 6
  | L164_free => 5
  | L166_if_ext_NULL => 4
  | L174_nconf_error => 3
  | L170_dealloc_1 => 2
  | L177_critical_malloc_error => 2
  | L171_return_self => 1
  | L180_error => 1
  | Returned => 0
  | Fault => 0
  end.

(** [n] statements, one after the other. *)
Fixpoint steps {lib : OpenSSL} (n : nat) (a : New_args) (e : environment)
    (s : New_state) : New_state :=
  match n with
  | O => s
  | S n' => steps n' a e (step a e s)
  end.

(** A second instance of the library: the one of [Demo] with a
    single-name printer that emits nothing. *)
Definition silent_library : OpenSSL :=
  {| OBJ_obj2nid := Demo.obj2nid;
     X509V3_EXT_nconf := Demo.nconf;
     X509V3_EXT_get := Demo.ext_get;
     ASN1_item_d2i := Demo.item_d2i;
     GENERAL_NAME_print_text := fun _ => [];
     X509V3_EXT_print_text := Demo.ext_print_text |}.

(** The short names of the two types [Demo] knows. *)
Definition demo_names : OBJ_names :=
  {| OBJ_nid2sn := fun nid =>
       if nid =? NID_undef then Some (lit "UNDEF")
       else if nid =? NID_subject_alt_name then Some (lit "subjectAltName")
       else if nid =? Demo.NID_basic_constraints
       then Some (lit "basicConstraints")
       else None |}.

(** * Properties *)

(** ** C strings and buffers *)

Lemma is_NUL_true (b : byte) : is_NUL b = true <-> b = NUL.
Proof.
  unfold is_NUL. split; intro H.
  - now apply Byte.byte_dec_bl.
  - now apply Byte.byte_dec_lb.
Qed.

Lemma is_NUL_false (b : byte) : b <> NUL -> is_NUL b = false.
Proof.
  intro H. destruct (is_NUL b) eqn:E; [ | reflexivity ].
  apply is_NUL_true in E. contradiction.
Qed.

Lemma c_str_NUL_free (p : list byte) : NUL_free p -> c_str p = p.
Proof.
  induction 1 as [ | b p Hb _ IH ]; simpl; [ reflexivity | ].
  rewrite (is_NUL_false b Hb), IH. reflexivity.
Qed.

Lemma NUL_free_c_str (p : list byte) : NUL_free (c_str p).
Proof.
  induction p as [ | b p IH ]; simpl; [ constructor | ].
  destruct (is_NUL b) eqn:E; constructor; [ | exact IH ].
  intro H. apply is_NUL_true in H. congruence.
Qed.

Lemma c_str_app (x y : list byte) :
  NUL_free x -> c_str (x ++ y) = x ++ c_str y.
Proof.
  induction 1 as [ | b x Hb _ IH ]; simpl; [ reflexivity | ].
  rewrite (is_NUL_false b Hb), IH. reflexivity.
Qed.

Lemma c_str_terminated (x rest : list byte) :
  NUL_free x -> c_str (x ++ NUL :: rest) = x.
Proof.
  intro H. rewrite (c_str_app x _ H). simpl. apply app_nil_r.
Qed.

Lemma existsb_NUL_app (x rest : list byte) :
  existsb is_NUL (x ++ NUL :: rest) = true.
Proof.
  rewrite existsb_app. simpl. apply orb_true_r.
Qed.

Lemma read_c_string_terminated (x rest : list byte) :
  NUL_free x -> read_c_string (x ++ NUL :: rest) = Some x.
Proof.
  intro H. unfold read_c_string.
  rewrite existsb_NUL_app, (c_str_terminated x rest H). reflexivity.
Qed.

Lemma malloc_bytes_length (junk : nat -> byte) (n : nat) :
  List.length (malloc_bytes junk n) = n.
Proof. unfold malloc_bytes. now rewrite length_map, length_seq. Qed.

Ltac literal_NUL_free :=
  repeat (constructor; [ discriminate | ]); constructor.

Lemma marker_NUL_free : NUL_free (lit "critical,").
Proof. literal_NUL_free. Qed.

(** ** Writing to the BIO *)

Lemma firstn_strlen (p : list byte) : firstn (strlen p) p = c_str p.
Proof.
  unfold strlen. induction p as [ | b p IH ]; simpl; [ reflexivity | ].
  destruct (is_NUL b); simpl; [ reflexivity | now rewrite IH ].
Qed.

(** [BIO_puts] writes the C string: what comes before the first NUL. *)
Lemma BIO_puts_c_str (bio : BIO) (s : list byte) :
  BIO_puts bio s = bio ++ c_str s.
Proof.
  unfold BIO_puts, BIO_write.
  destruct (Z.of_nat (strlen s) <=? 0) eqn:E.
  - apply Z.leb_le in E. unfold strlen in E.
    destruct (c_str s); simpl in E; [ | lia ].
    now rewrite app_nil_r.
  - now rewrite Nat2Z.id, firstn_strlen.
Qed.

Lemma BIO_puts_NUL_free (bio : BIO) (s : list byte) :
  NUL_free s -> BIO_puts bio s = bio ++ s.
Proof.
  intro H. now rewrite BIO_puts_c_str, (c_str_NUL_free s H).
Qed.

Lemma BIO_write_range (bio : BIO) (s : ASN1_STRING) :
  BIO_write bio (ASN1_STRING_data s) (ASN1_STRING_length s)
  = bio ++ ASN1_STRING_range s.
Proof.
  unfold BIO_write, ASN1_STRING_range.
  destruct (ASN1_STRING_length s <=? 0) eqn:E; [ | reflexivity ].
  apply Z.leb_le in E.
  replace (Z.to_nat (ASN1_STRING_length s)) with 0%nat by lia.
  simpl. now rewrite app_nil_r.
Qed.

Lemma ASN1_STRING_range_length (s : ASN1_STRING) :
  ASN1_STRING_wf s ->
  Z.of_nat (List.length (ASN1_STRING_range s)) = ASN1_STRING_length s.
Proof.
  unfold ASN1_STRING_wf, ASN1_STRING_range. intros [H0 H1].
  rewrite length_firstn. lia.
Qed.

(** ** Filling the buffer *)

Lemma strcpy_fits (dst : list byte) (off : nat) (src : list byte) :
  (off + strlen src + 1 <= List.length dst)%nat ->
  strcpy dst off src
  = Some (firstn off dst ++ c_str src
            ++ NUL :: skipn (off + strlen src + 1) dst).
Proof.
  intro H. unfold strcpy, strlen in *. rewrite length_app. cbn [List.length].
  destruct (Nat.leb_spec (off + (List.length (c_str src) + 1))
              (List.length dst)) as [ _ | Hgt ]; [ | lia ].
  rewrite <- app_assoc. cbn [app]. now rewrite Nat.add_assoc.
Qed.

Lemma strlen_marker : strlen (lit "critical,") = 9%nat.
Proof. reflexivity. Qed.

Lemma c_str_marker : c_str (lit "critical,") = lit "critical,".
Proof. reflexivity. Qed.

(** Not critical: the value and its terminator fit the buffer, and the
    buffer then reads as the value. *)
Lemma buffer_plain (junk : nat -> byte) (v : list byte) :
  exists buf,
    strcpy (malloc_bytes junk (strlen (lit "critical,") + strlen v + 1)) 0 v
    = Some buf
    /\ read_c_string buf = Some (c_str v).
Proof.
  eexists. split.
  - apply strcpy_fits. rewrite malloc_bytes_length. lia.
  - cbn [firstn app]. apply read_c_string_terminated, NUL_free_c_str.
Qed.

(** Critical: the marker, then the value at offset 9, fit the buffer,
    and the buffer then reads as the marker followed by the value. *)
Lemma buffer_marked (junk : nat -> byte) (v : list byte) :
  exists buf1 buf2,
    strcpy (malloc_bytes junk (strlen (lit "critical,") + strlen v + 1)) 0
      (lit "critical,") = Some buf1
    /\ strcpy buf1 (strlen (lit "critical,")) v = Some buf2
    /\ read_c_string buf2 = Some (lit "critical," ++ c_str v).
Proof.
  set (buf := malloc_bytes junk (strlen (lit "critical,") + strlen v + 1)).
  assert (Hlen : List.length buf = (9 + strlen v + 1)%nat)
    by (unfold buf; now rewrite malloc_bytes_length, strlen_marker).
  assert (H1 : strcpy buf 0 (lit "critical,")
               = Some (lit "critical,"
                         ++ NUL :: skipn (0 + 9 + 1) buf)).
  { rewrite strcpy_fits by (rewrite strlen_marker; lia).
    now rewrite strlen_marker, c_str_marker. }
  eexists; eexists. split; [ exact H1 | ].
  assert (Hlen1 : List.length (lit "critical,"
                                 ++ NUL :: skipn (0 + 9 + 1) buf)
                  = (9 + strlen v + 1)%nat).
  { rewrite length_app. cbn [List.length]. rewrite length_skipn.
    change (List.length (lit "critical,")) with 9%nat. lia. }
  split.
  - apply strcpy_fits. rewrite strlen_marker. lia.
  - rewrite strlen_marker.
    rewrite firstn_app.
    change (List.length (lit "critical,")) with 9%nat.
    rewrite firstn_all2 by (change (List.length (lit "critical,")) with 9%nat; lia).
    rewrite Nat.sub_diag. cbn [firstn]. rewrite app_nil_r.
    rewrite app_assoc.
    apply read_c_string_terminated.
    apply Forall_app. split; [ apply marker_NUL_free | apply NUL_free_c_str ].
Qed.

Section Properties.

Context {lib : OpenSSL}.

(** ** The subjectAltName loop *)

Lemma print_name_text (bio : BIO) (name : GENERAL_NAME) :
  print_name bio name = bio ++ entry_text name.
Proof.
  destruct name; simpl; try reflexivity;
    rewrite BIO_puts_NUL_free by literal_NUL_free;
    rewrite BIO_write_range; now rewrite <- app_assoc.
Qed.

Lemma render_names_cons (name : GENERAL_NAME) (rest : GENERAL_NAMES) :
  render_names (name :: rest)
  = entry_text name ++ sep_unless_empty rest ++ render_names rest.
Proof.
  unfold render_names. destruct rest as [ | n rest ]; simpl.
  - now rewrite app_nil_r.
  - reflexivity.
Qed.

Lemma render_names_app (before after : GENERAL_NAMES) :
  after <> [] ->
  render_names (before ++ after)
  = render_names before ++ sep_unless_empty before ++ render_names after.
Proof.
  intro Hne. induction before as [ | n before IH ]; [ reflexivity | ].
  rewrite <- app_comm_cons, !render_names_cons, IH.
  destruct before as [ | m before ].
  - destruct after as [ | g after ]; [ contradiction | ].
    change (render_names []) with (@nil byte).
    cbn [app sep_unless_empty]. now rewrite app_nil_r.
  - cbn [app sep_unless_empty]. now rewrite <- !app_assoc.
Qed.

(** The loop from index [length done] on writes the remaining entries,
    separated, and never meets a NULL entry. *)
Lemma names_loop_from (rest done : GENERAL_NAMES) (bio : BIO) :
  names_loop (List.length rest) (Z.of_nat (List.length done))
    (Z.of_nat (List.length (done ++ rest))) (done ++ rest) bio
  = Some (bio ++ render_names rest).
Proof.
  revert done bio.
  induction rest as [ | name rest IH ]; intros done bio.
  - simpl. now rewrite app_nil_r.
  - cbn [names_loop List.length].
    assert (Hlen : List.length (done ++ name :: rest)
                   = (List.length done + S (List.length rest))%nat)
      by (rewrite length_app; reflexivity).
    destruct (Z.ltb_spec (Z.of_nat (List.length done))
                (Z.of_nat (List.length (done ++ name :: rest))))
      as [ _ | Hge ]; [ | lia ].
    unfold sk_GENERAL_NAME_value.
    destruct (Z.ltb_spec (Z.of_nat (List.length done)) 0) as [ Hneg | _ ];
      [ lia | ].
    rewrite Nat2Z.id, nth_error_app2 by lia.
    rewrite Nat.sub_diag. cbn [nth_error].
    rewrite print_name_text, render_names_cons.
    replace (done ++ name :: rest) with ((done ++ [name]) ++ rest)
      by (now rewrite <- app_assoc).
    replace (Z.of_nat (List.length done) + 1)
      with (Z.of_nat (List.length (done ++ [name])))
      by (rewrite length_app; simpl; lia).
    destruct rest as [ | next rest ].
    + destruct (Z.ltb_spec (Z.of_nat (List.length done))
                  (Z.of_nat (List.length ((done ++ [name]) ++ [])) - 1))
        as [ Hlt | _ ].
      * rewrite app_nil_r, length_app in Hlt. simpl in Hlt. lia.
      * rewrite IH. simpl. now rewrite !app_nil_r.
    + destruct (Z.ltb_spec (Z.of_nat (List.length done))
                  (Z.of_nat (List.length ((done ++ [name]) ++ next :: rest))
                   - 1)) as [ _ | Hge ].
      * rewrite BIO_puts_NUL_free by literal_NUL_free.
        rewrite IH. cbn [sep_unless_empty]. now rewrite <- !app_assoc.
      * rewrite !length_app in Hge. simpl in Hge. lia.
Qed.

Lemma names_loop_all (names : GENERAL_NAMES) (bio : BIO) :
  let num := sk_GENERAL_NAME_num names in
  names_loop (Z.to_nat num) 0 num names bio
  = Some (bio ++ render_names names).
Proof.
  unfold sk_GENERAL_NAME_num. cbv zeta. rewrite Nat2Z.id.
  exact (names_loop_from names [] bio).
Qed.

(** ** The subjectAltName printer and [str] *)

Lemma str_subjectAltName_decoded self ext m names q bio w :
  x509_extension self = Def (Some ext) ->
  X509V3_EXT_get ext = Some m ->
  decode_names m (ASN1_STRING_data (ext_value ext))
    (ASN1_STRING_length (ext_value ext)) (ossl_errors w) = (Some names, q) ->
  crypto_X509Extension_str_subjectAltName self bio w
  = Some (0, bio ++ render_names names,
          emit Ev_sk_GENERAL_NAME_pop_free (set_errors q w)).
Proof.
  intros Hself Hget Hdec. unfold crypto_X509Extension_str_subjectAltName.
  rewrite Hself, Hget, Hdec.
  now rewrite (names_loop_all names bio).
Qed.

Lemma str_subjectAltName_no_method self ext bio w :
  x509_extension self = Def (Some ext) ->
  X509V3_EXT_get ext = None ->
  crypto_X509Extension_str_subjectAltName self bio w = Some (-1, bio, w).
Proof.
  intros Hself Hget. unfold crypto_X509Extension_str_subjectAltName.
  now rewrite Hself, Hget.
Qed.

Lemma str_subjectAltName_undecodable self ext m q bio w :
  x509_extension self = Def (Some ext) ->
  X509V3_EXT_get ext = Some m ->
  decode_names m (ASN1_STRING_data (ext_value ext))
    (ASN1_STRING_length (ext_value ext)) (ossl_errors w) = (None, q) ->
  crypto_X509Extension_str_subjectAltName self bio w
  = Some (-1, bio, set_errors q w).
Proof.
  intros Hself Hget Hdec. unfold crypto_X509Extension_str_subjectAltName.
  now rewrite Hself, Hget, Hdec.
Qed.

Lemma materialise (bio : BIO) :
  (let '(str_len, tmp_str) := BIO_get_mem_data bio in
   PyText_FromStringAndSize tmp_str str_len) = PyText bio.
Proof.
  unfold BIO_get_mem_data, PyText_FromStringAndSize.
  now rewrite Nat2Z.id, firstn_all.
Qed.

(** [str] is one of its two paths, chosen by the NID of the OID. *)
Lemma str_paths self ext w :
  x509_extension self = Def (Some ext) ->
  crypto_X509Extension_str self w
  = if OBJ_obj2nid (ext_object ext) =? NID_subject_alt_name
    then san_path self w else generic_path ext w.
Proof.
  intro Hself. unfold crypto_X509Extension_str. rewrite Hself.
  destruct (OBJ_obj2nid (ext_object ext) =? NID_subject_alt_name).
  - unfold san_path.
    destruct (crypto_X509Extension_str_subjectAltName self BIO_new_mem w)
      as [ [ [rc bio] w1 ] | ]; [ | reflexivity ].
    unfold finish_str. destruct (rc =? -1); [ reflexivity | ].
    pose proof (materialise bio) as M. unfold BIO_get_mem_data in *.
    now rewrite M.
  - unfold generic_path, X509V3_EXT_print.
    destruct (X509V3_EXT_print_text ext 0 0 (ossl_errors w))
      as [ [ok text] q ].
    unfold finish_str. cbn [BIO_new_mem app].
    destruct (ok =? 0); [ reflexivity | ].
    pose proof (materialise text) as M. unfold BIO_get_mem_data in *.
    now rewrite M.
Qed.

Lemma str_san_decoded self ext m names q w :
  x509_extension self = Def (Some ext) ->
  OBJ_obj2nid (ext_object ext) = NID_subject_alt_name ->
  X509V3_EXT_get ext = Some m ->
  decode_names m (ASN1_STRING_data (ext_value ext))
    (ASN1_STRING_length (ext_value ext)) (ossl_errors w) = (Some names, q) ->
  crypto_X509Extension_str self w
  = Some (Some (PyText (render_names names)),
          emit Ev_BIO_free
            (emit Ev_sk_GENERAL_NAME_pop_free (set_errors q w))).
Proof.
  intros Hself Hnid Hget Hdec.
  rewrite (str_paths self ext w Hself), Hnid, Z.eqb_refl.
  unfold san_path.
  now rewrite (str_subjectAltName_decoded _ _ _ _ _ _ w Hself Hget Hdec).
Qed.

(** C1: an email, DNS or URI entry of the decoded sequence is written as
    its prefix and then the whole byte range that its length field
    indicates, whatever bytes (NUL included) the range holds; the range
    has exactly [length] bytes.  When the range holds a NUL, the
    length-exact write used gives the bytes before it, the NUL and the
    bytes after it, where a NUL-terminated write of the same data would
    have stopped before the NUL. *)
Theorem san_name_written_length_exact
    self ext m before name after q bio w prefix s :
  x509_extension self = Def (Some ext) ->
  X509V3_EXT_get ext = Some m ->
  decode_names m (ASN1_STRING_data (ext_value ext))
    (ASN1_STRING_length (ext_value ext)) (ossl_errors w)
  = (Some (before ++ name :: after), q) ->
  text_name name = Some (prefix, s) ->
  ASN1_STRING_wf s ->
  crypto_X509Extension_str_subjectAltName self bio w
  = Some (0,
          bio ++ render_names before ++ sep_unless_empty before
              ++ (prefix ++ ASN1_STRING_range s)
              ++ sep_unless_empty after ++ render_names after,
          emit Ev_sk_GENERAL_NAME_pop_free (set_errors q w))
  /\ Z.of_nat (List.length (ASN1_STRING_range s)) = ASN1_STRING_length s
  /\ (forall x y,
        ASN1_STRING_range s = x ++ NUL :: y -> NUL_free x ->
        BIO_write [] (ASN1_STRING_data s) (ASN1_STRING_length s)
        = x ++ NUL :: y
        /\ BIO_puts [] (ASN1_STRING_data s) = x).
Proof.
  intros Hself Hget Hdec Hname Hwf. split; [ | split ].
  - rewrite (str_subjectAltName_decoded _ _ _ _ _ bio w Hself Hget Hdec).
    rewrite render_names_app by discriminate.
    rewrite render_names_cons.
    assert (Htext : entry_text name = prefix ++ ASN1_STRING_range s).
    { destruct name; simpl in Hname; try discriminate;
        injection Hname as <- <-; reflexivity. }
    rewrite Htext. now rewrite <- !app_assoc.
  - now apply ASN1_STRING_range_length.
  - intros x y Hxy Hx. split.
    + now rewrite BIO_write_range, Hxy.
    + rewrite BIO_puts_c_str. cbn [app].
      rewrite <- (firstn_skipn (Z.to_nat (ASN1_STRING_length s))
                    (ASN1_STRING_data s)).
      fold (ASN1_STRING_range s). rewrite Hxy, <- app_assoc.
      cbn [app]. now apply c_str_terminated.
Qed.

(** C2: the entries are rendered in decoded order, each as its entry
    text (literal prefix and byte range for email, DNS and URI, the
    library's single-name printer otherwise), with ", " between successive
    entries and nothing after the last; this is the text [str] returns
    for a subjectAltName extension, and the three-entry example gives
    exactly the specified text. *)
Theorem san_entries_in_order_with_separators self ext m names q bio w :
  x509_extension self = Def (Some ext) ->
  X509V3_EXT_get ext = Some m ->
  decode_names m (ASN1_STRING_data (ext_value ext))
    (ASN1_STRING_length (ext_value ext)) (ossl_errors w) = (Some names, q) ->
  crypto_X509Extension_str_subjectAltName self bio w
  = Some (0, bio ++ render_names names,
          emit Ev_sk_GENERAL_NAME_pop_free (set_errors q w))
  /\ (OBJ_obj2nid (ext_object ext) = NID_subject_alt_name ->
      option_map fst (crypto_X509Extension_str self w)
      = Some (Some (PyText (render_names names))))
  /\ (forall name rest,
        render_names (name :: rest)
        = entry_text name ++ sep_unless_empty rest ++ render_names rest)
  /\ render_names [] = []
  /\ (names = Demo.example_names ->
      render_names names
      = lit "email:a@example.com, DNS:example.com, URI:https://example.com").
Proof.
  intros Hself Hget Hdec. repeat split.
  - exact (str_subjectAltName_decoded _ _ _ _ _ bio w Hself Hget Hdec).
  - intro Hnid.
    now rewrite (str_san_decoded _ _ _ _ _ w Hself Hnid Hget Hdec).
  - exact render_names_cons.
  - intros ->. reflexivity.
Qed.

(** C6: [str] takes the subjectAltName path exactly when the NID of the
    extension's OID is that of subjectAltName, and otherwise the generic
    path, the library's extension printer called with flag 0 and
    indentation 0. *)
Theorem str_dispatch self ext w :
  x509_extension self = Def (Some ext) ->
  (OBJ_obj2nid (ext_object ext) = NID_subject_alt_name ->
   crypto_X509Extension_str self w = san_path self w)
  /\ (OBJ_obj2nid (ext_object ext) <> NID_subject_alt_name ->
      crypto_X509Extension_str self w = generic_path ext w).
Proof.
  intro Hself. rewrite (str_paths self ext w Hself). split; intro H.
  - now rewrite H, Z.eqb_refl.
  - apply Z.eqb_neq in H. now rewrite H.
Qed.

(** C7: on a subjectAltName extension [str] returns NULL exactly when no
    descriptor is registered for the extension or the decoder gives no
    name sequence; it then raises the Error and hands out no text, and
    the printer has written nothing to the BIO. *)
Theorem san_format_fails_iff self ext w :
  x509_extension self = Def (Some ext) ->
  OBJ_obj2nid (ext_object ext) = NID_subject_alt_name ->
  exists r w',
    crypto_X509Extension_str self w = Some (r, w')
    /\ (r = None <->
        (X509V3_EXT_get ext = None
         \/ exists m,
             X509V3_EXT_get ext = Some m
             /\ fst (decode_names m (ASN1_STRING_data (ext_value ext))
                       (ASN1_STRING_length (ext_value ext)) (ossl_errors w))
                = None))
    /\ (r = None -> exists errs, py_err w' = Some (crypto_Error errs))
    /\ (r <> None -> py_err w' = py_err w)
    /\ (forall bio rc bio' w'',
          crypto_X509Extension_str_subjectAltName self bio w
          = Some (rc, bio', w'') ->
          rc = -1 -> bio' = bio).
Proof.
  intros Hself Hnid.
  rewrite (str_paths self ext w Hself), Hnid, Z.eqb_refl.
  unfold san_path.
  destruct (X509V3_EXT_get ext) as [ m | ] eqn:Hget.
  - destruct (decode_names m (ASN1_STRING_data (ext_value ext))
                (ASN1_STRING_length (ext_value ext)) (ossl_errors w))
      as [ [ names | ] q ] eqn:Hdec.
    + rewrite (str_subjectAltName_decoded _ _ _ _ _ _ w Hself Hget Hdec).
      eexists; eexists; split; [ reflexivity | ].
      cbn [finish_str Z.eqb fst]. repeat split.
      * discriminate.
      * intros [ H | [ m' [ Hm' Hnone ] ] ]; [ discriminate | ].
        injection Hm' as <-. rewrite Hdec in Hnone. discriminate.
      * discriminate.
      * intros bio rc bio' w''.
        rewrite (str_subjectAltName_decoded _ _ _ _ _ bio w Hself Hget Hdec).
        intros E Hrc. injection E as <- _ _. discriminate.
    + rewrite (str_subjectAltName_undecodable _ _ _ _ _ w Hself Hget Hdec).
      eexists; eexists; split; [ reflexivity | ].
      cbn [finish_str Z.eqb Pos.eqb fst]. repeat split.
      * intros _. right. exists m. rewrite Hdec. now split.
      * intros _. eexists. reflexivity.
      * intro H. now contradiction H.
      * intros bio rc bio' w''.
        rewrite (str_subjectAltName_undecodable _ _ _ _ bio w Hself Hget Hdec).
        intros E _. now injection E as _ <- _.
  - rewrite (str_subjectAltName_no_method _ _ _ w Hself Hget).
    eexists; eexists; split; [ reflexivity | ].
    cbn [finish_str Z.eqb Pos.eqb fst]. repeat split.
    + intros _. now left.
    + intros _. eexists. reflexivity.
    + intro H. now contradiction H.
    + intros bio rc bio' w''.
      rewrite (str_subjectAltName_no_method _ _ bio w Hself Hget).
      intros E _. now injection E as _ <- _.
Qed.

(** C9: when the payload of a subjectAltName extension decodes to the
    empty sequence, [str] succeeds with the empty text: no entry, no
    separator, no exception. *)
Theorem san_format_empty self ext m q w :
  x509_extension self = Def (Some ext) ->
  OBJ_obj2nid (ext_object ext) = NID_subject_alt_name ->
  X509V3_EXT_get ext = Some m ->
  decode_names m (ASN1_STRING_data (ext_value ext))
    (ASN1_STRING_length (ext_value ext)) (ossl_errors w) = (Some [], q) ->
  exists w',
    crypto_X509Extension_str self w = Some (Some (PyText []), w')
    /\ py_err w' = py_err w.
Proof.
  intros Hself Hnid Hget Hdec.
  rewrite (str_paths self ext w Hself), Hnid, Z.eqb_refl.
  unfold san_path.
  rewrite (str_subjectAltName_decoded _ _ _ _ _ _ w Hself Hget Hdec).
  eexists. split; reflexivity.
Qed.

(** ** The constructor, run *)

Lemma run_S (fuel : nat) a e s :
  run (S fuel) a e s
  = if stopped (st_pc s) then s else run fuel a e (step a e s).
Proof. reflexivity. Qed.

Lemma run_go (fuel : nat) a e s :
  stopped (st_pc s) = false ->
  run (S fuel) a e s = run fuel a e (step a e s).
Proof. intro H. rewrite run_S. now rewrite H. Qed.

Lemma run_stopped (fuel : nat) a e s :
  stopped (st_pc s) = true -> run fuel a e s = s.
Proof. intro H. destruct fuel; [ reflexivity | ]. rewrite run_S. now rewrite H. Qed.

(** Unfold the statement just taken, down to a state with its fields
    written out. *)
Ltac reduce :=
  cbv beta iota zeta delta
      [step st_pc st_ctx st_self st_value_with_critical
       st_world st_result goto with_ctx with_self with_buffer
       with_world with_result initial_state set_dealloc
       set_x509_extension set_refcnt Py_XDECREF
       crypto_X509Extension_dealloc dealloc ob_refcnt
       x509_extension PyObject_New_ok malloc_ok heap_junk
       stack_junk subject issuer critical value type_name
       ctx_flags issuer_cert subject_cert subject_req ctx_crl
       ctx_db X509V3_set_ctx X509V3_set_ctx_nodb];
  change (1 - 1 =? 0) with true;
  cbv beta iota.

(** One statement at a time, as long as the next label is known. *)
Ltac exec :=
  repeat (rewrite run_go by reflexivity; reduce);
  try rewrite run_stopped by reflexivity.

(** The state in which the machine stops: it has returned, with the
    outcome [New_outcome]. *)
Lemma run_returns (a : New_args) (e : environment) (w : world) :
  exists s,
    run 32 a e (initial_state e w) = s
    /\ st_pc s = Returned
    /\ (st_result s, st_world s) = New_outcome a e w.
Proof.
  unfold New_outcome, value_passed, New_ctx.
  destruct a as [t c v sub iss]. destruct e as [pok mok junk sj].
  destruct (buffer_plain junk v) as [ b [ Hb Hr ] ].
  destruct (buffer_marked junk v) as [ b1 [ b2 [ H1 [ H2 Hr2 ] ] ] ].
  cbn [PyObject_New_ok malloc_ok critical value type_name subject issuer
       negb option_map].
  destruct pok;
    [ | destruct sub, iss; eexists; (split; [ exec; reflexivity | ]);
        split; reflexivity ].
  destruct mok;
    [ | destruct sub, iss; eexists; (split; [ exec; reflexivity | ]);
        split; reflexivity ].
  destruct (c =? 0) eqn:Hc.
  - destruct sub as [ sub | ], iss as [ iss | ];
      cbn [negb option_map];
      match goal with
      | |- context [X509V3_EXT_nconf ?c ?n ?x ?q] =>
          destruct (X509V3_EXT_nconf c n x q) as [ [ ex | ] q' ] eqn:Hn
      end;
      eexists;
      (split;
       [ exec; rewrite Hc; exec; rewrite Hb; exec; rewrite Hr; reduce;
         rewrite Hn; exec;
         reflexivity | ]);
      split; reflexivity.
  - destruct sub as [ sub | ], iss as [ iss | ];
      cbn [negb option_map];
      match goal with
      | |- context [X509V3_EXT_nconf ?c ?n ?x ?q] =>
          destruct (X509V3_EXT_nconf c n x q) as [ [ ex | ] q' ] eqn:Hn
      end;
      eexists;
      (split;
       [ exec; rewrite Hc; exec; rewrite H1; exec; rewrite H2; exec;
         rewrite Hr2; reduce; rewrite Hn; exec; reflexivity | ]);
      split; reflexivity.
Qed.

Lemma New_big_step (a : New_args) (e : environment) (w : world) :
  crypto_X509Extension_New a e w = Some (New_outcome a e w).
Proof.
  unfold crypto_X509Extension_New.
  destruct (run_returns a e w) as [ s [ -> [ Hpc <- ] ] ].
  cbv zeta. now rewrite Hpc.
Qed.

(** What a successful call returns: an object that wraps the extension
    the interpreter built, and owns it. *)
Lemma New_success (a : New_args) (e : environment) (w w1 : world) self :
  crypto_X509Extension_New a e w = Some (Some self, w1) ->
  exists ex q,
    X509V3_EXT_nconf (New_ctx a) (c_str (type_name a)) (value_passed a)
      (ossl_errors w) = (Some ex, q)
    /\ self = {| ob_refcnt := 1; x509_extension := Def (Some ex);
                 dealloc := Def 1 |}.
Proof.
  rewrite New_big_step. unfold New_outcome.
  destruct (PyObject_New_ok e); cbn [negb]; [ | discriminate ].
  destruct (malloc_ok e); cbn [negb]; [ | discriminate ].
  destruct (X509V3_EXT_nconf _ _ _ _) as [ [ ex | ] q ]; [ | discriminate ].
  intro H. injection H as <- _. now exists ex, q.
Qed.

(** The three ways the constructor fails, and Python's error indicator
    in each. *)
Lemma New_failure_cases (a : New_args) (e : environment) (w w1 : world) :
  crypto_X509Extension_New a e w = Some (None, w1) ->
  (PyObject_New_ok e = false /\ py_err w1 = Some MemoryError)
  \/ (PyObject_New_ok e = true /\ malloc_ok e = false
      /\ py_err w1 = py_err w)
  \/ (PyObject_New_ok e = true /\ malloc_ok e = true
      /\ exists q,
          X509V3_EXT_nconf (New_ctx a) (c_str (type_name a))
            (value_passed a) (ossl_errors w) = (None, q)
          /\ py_err w1 = Some (crypto_Error q)).
Proof.
  rewrite New_big_step. unfold New_outcome.
  destruct (PyObject_New_ok e); cbn [negb].
  - destruct (malloc_ok e); cbn [negb].
    + destruct (X509V3_EXT_nconf _ _ _ _) as [ [ ex | ] q ];
        [ discriminate | ].
      intro H. injection H as <-. right. right.
      repeat split. now exists q.
    + intro H. injection H as <-. right. left. now repeat split.
  - intro H. injection H as <-. left. now split.
Qed.

Lemma value_passed_NUL_free (a : New_args) :
  NUL_free (value a) ->
  value_passed a
  = if critical a =? 0 then value a else lit "critical," ++ value a.
Proof.
  intro H. unfold value_passed. now rewrite (c_str_NUL_free _ H).
Qed.

(** C3: the value text handed to the interpreter is the marker
    "critical," followed by the value when [critical] is set, and the
    value itself otherwise (an empty value included); the interpreter is
    called once, and its result is what the object wraps. *)
Theorem New_passes_marked_value (a : New_args) (e : environment)
    (w : world) :
  PyObject_New_ok e = true ->
  malloc_ok e = true ->
  NUL_free (value a) ->
  let passed :=
    if critical a =? 0 then value a else lit "critical," ++ value a in
  exists r w1 rest,
    crypto_X509Extension_New a e w = Some (r, w1)
    /\ trace w1
       = trace w
         ++ Ev_X509V3_EXT_nconf (New_ctx a) (c_str (type_name a)) passed
         :: rest
    /\ existsb is_Ev_X509V3_EXT_nconf rest = false
    /\ match r with
       | Some self =>
           x509_extension self
           = Def (fst (X509V3_EXT_nconf (New_ctx a) (c_str (type_name a))
                         passed (ossl_errors w)))
       | None =>
           fst (X509V3_EXT_nconf (New_ctx a) (c_str (type_name a))
                  passed (ossl_errors w)) = None
       end.
Proof.
  intros Hp Hm Hv passed. rewrite New_big_step. unfold New_outcome.
  rewrite Hp, Hm. cbn [negb].
  rewrite (value_passed_NUL_free a Hv). fold passed.
  destruct (X509V3_EXT_nconf _ _ _ _) as [ [ ex | ] q ].
  - eexists; eexists; eexists. split; [ reflexivity | ].
    cbn [trace emit set_errors]. rewrite <- app_assoc.
    split; [ reflexivity | ]. split; reflexivity.
  - eexists; eexists; eexists. split; [ reflexivity | ].
    cbn [trace emit set_errors exception_from_error_queue].
    rewrite <- !app_assoc. split; [ reflexivity | ]. split; reflexivity.
Qed.

Lemma starts_with_marker (x : list byte) :
  starts_with (lit "critical,") (lit "critical," ++ x) = true.
Proof. reflexivity. Qed.

(** C4 as amended: when the interpreter honours the marker, the query
    gives true exactly when [critical] was set or the value itself begins
    with the marker "critical,"; so it gives [critical] for every value
    that does not begin with the marker.  The answer is computed from the
    wrapped extension: objects wrapping the same extension answer the
    same. *)
Theorem critical_query_reflects_marker (a : New_args) (e : environment)
    (w0 w1 : world) self :
  honours_critical_marker lib ->
  NUL_free (value a) ->
  crypto_X509Extension_New a e w0 = Some (Some self, w1) ->
  forall w,
    crypto_X509Extension_get_critical self [] w
    = Some (Some (PyLong
                    (if negb (critical a =? 0)
                        || starts_with (lit "critical,") (value a)
                     then 1 else 0)), w)
    /\ (starts_with (lit "critical,") (value a) = false ->
        crypto_X509Extension_get_critical self [] w
        = Some (Some (PyLong (if critical a =? 0 then 0 else 1)), w))
    /\ (forall self',
          x509_extension self' = x509_extension self ->
          crypto_X509Extension_get_critical self' [] w
          = crypto_X509Extension_get_critical self [] w).
Proof.
  intros Hlib Hv Hnew w.
  destruct (New_success a e w0 w1 self Hnew) as [ ex [ q [ Hn -> ] ] ].
  apply Hlib in Hn. rewrite (value_passed_NUL_free a Hv) in Hn.
  assert (Hq : crypto_X509Extension_get_critical
                 {| ob_refcnt := 1; x509_extension := Def (Some ex);
                    dealloc := Def 1 |} [] w
               = Some (Some (PyLong
                    (if negb (critical a =? 0)
                        || starts_with (lit "critical,") (value a)
                     then 1 else 0)), w)).
  { unfold crypto_X509Extension_get_critical.
    cbn [PyArg_ParseTuple_none negb x509_extension]. rewrite Hn.
    destruct (critical a =? 0); cbn [negb orb];
      [ reflexivity | now rewrite starts_with_marker ]. }
  split; [ exact Hq | split ].
  - intro Hs. rewrite Hq, Hs. now rewrite orb_false_r, if_negb.
  - intros self' Hsame. unfold crypto_X509Extension_get_critical.
    now rewrite Hsame.
Qed.

(** C8: the data query returns the stored payload, the [length] bytes at
    [data], with whatever NUL bytes they hold, and does not fail. *)
Theorem get_data_length_exact self ex (w : world) :
  x509_extension self = Def (Some ex) ->
  ASN1_STRING_wf (ext_value ex) ->
  crypto_X509Extension_get_data self [] w
  = Some (Some (PyBytes (ASN1_STRING_range (ext_value ex))), w)
  /\ Z.of_nat (List.length (ASN1_STRING_range (ext_value ex)))
     = ASN1_STRING_length (ext_value ex)
  /\ (forall x y,
        ASN1_STRING_range (ext_value ex) = x ++ NUL :: y ->
        crypto_X509Extension_get_data self [] w
        = Some (Some (PyBytes (x ++ NUL :: y)), w)).
Proof.
  intros Hself Hwf.
  assert (H : crypto_X509Extension_get_data self [] w
              = Some (Some (PyBytes (ASN1_STRING_range (ext_value ex))), w)).
  { unfold crypto_X509Extension_get_data.
    cbn [PyArg_ParseTuple_none negb]. rewrite Hself.
    unfold PyBytes_FromStringAndSize, X509_EXTENSION_get_data.
    destruct Hwf as [ H0 _ ].
    destruct (Z.ltb_spec (ASN1_STRING_length (ext_value ex)) 0);
      [ lia | reflexivity ]. }
  split; [ exact H | split ].
  - now apply ASN1_STRING_range_length.
  - intros x y Hxy. now rewrite H, Hxy.
Qed.

(** ** The ownership flag *)

Lemma flag_invariant_start (e : environment) (w : world) :
  flag_invariant (initial_state e w).
Proof. reflexivity. Qed.

Lemma flag_invariant_step (a : New_args) (e : environment) (s : New_state) :
  flag_invariant s -> flag_invariant (step a e s).
Proof.
  unfold flag_invariant, step. destruct s as [pc c self buf w r].
  cbn [st_pc st_self st_value_with_critical st_world st_ctx st_result].
  destruct pc; intro H.
  all: cbn [st_pc st_self st_result goto with_ctx with_self with_buffer
            with_world with_result].
  all: try exact H.
  - (* L126 *) destruct (subject a); exact H.
  - (* L130 *) destruct (issuer a); exact H.
  - (* L134 *) destruct (PyObject_New_ok e); cbn [st_self with_self with_world];
      [ intros o Ho; now injection Ho as <- | discriminate ].
  - (* L136 *) destruct self; cbn [st_pc st_self goto]; [ exact H | discriminate ].
  - (* L140 *) destruct self; cbn [st_pc st_self goto with_self];
      [ intros o Ho; now injection Ho as <- | discriminate ].
  - (* L150 *) destruct buf; exact H.
  - (* L154 *) destruct (critical a =? 0); exact H.
  - (* L155 *) destruct buf as [ b | ]; [ | exact H ].
    destruct (strcpy b 0 _); exact H.
  - (* L156 *) destruct buf as [ b | ]; [ | exact H ].
    destruct (strcpy b _ _); exact H.
  - (* L158 *) destruct buf as [ b | ]; [ | exact H ].
    destruct (strcpy b 0 _); exact H.
  - (* L161 *) destruct self as [ o | ]; [ | exact H ].
    destruct buf as [ b | ]; [ | exact H ].
    destruct (read_c_string b); [ | exact H ].
    destruct (X509V3_EXT_nconf _ _ _ _) as [ ext q ].
    cbn [st_pc st_self goto with_self with_world].
    intros o' Ho'. injection Ho' as <-. cbn [dealloc set_x509_extension].
    now apply H.
  - (* L166 *) destruct self as [ o | ]; [ | exact H ].
    destruct (x509_extension o) as [ | [ ex | ] ] eqn:Hx;
      cbn [st_pc st_self goto]; try exact H.
    intros o' Ho'. injection Ho' as <-. split; [ now apply H | now exists ex ].
  - (* L170 *) destruct self as [ o | ]; cbn [st_pc st_self goto with_self].
    + intros o' Ho'. injection Ho' as <-. cbn [dealloc set_dealloc x509_extension].
      split; [ reflexivity | now apply (H o) ].
    + discriminate.
  - (* L171 *) intros o Ho. right. destruct (H o Ho) as [ Hd Hx ].
    now repeat split.
  - (* L177 *) destruct self as [ o | ]; cbn [Py_XDECREF].
    + pose proof (H o eq_refl) as Hd. cbn [ob_refcnt set_refcnt].
      destruct (ob_refcnt o - 1 =? 0).
      * unfold crypto_X509Extension_dealloc. cbn [dealloc set_refcnt].
        rewrite Hd. cbn [st_pc st_self goto with_self with_world].
        intros o' Ho'. now injection Ho' as <-.
      * cbn [st_pc st_self goto with_self with_world].
        intros o' Ho'. now injection Ho' as <-.
    + cbn [st_pc st_self goto with_self with_world]. discriminate.
  - (* L180 *) intros o Ho. left. split; [ now apply H | reflexivity ].
Qed.

Lemma reachable_flag_invariant a e w s :
  reachable a e w s -> flag_invariant s.
Proof.
  induction 1 as [ | s _ IH ].
  - apply flag_invariant_start.
  - now apply flag_invariant_step.
Qed.

Lemma dealloc_unowned (o : crypto_X509ExtensionObj) (w : world) :
  dealloc o = Def 0 ->
  crypto_X509Extension_dealloc o w = Some (emit Ev_PyObject_Del w).
Proof.
  intro H. unfold crypto_X509Extension_dealloc. now rewrite H.
Qed.

Lemma New_failure_frees_no_extension a e (w w1 : world) :
  crypto_X509Extension_New a e w = Some (None, w1) ->
  exists added,
    trace w1 = trace w ++ added
    /\ existsb is_Ev_X509_EXTENSION_free added = false.
Proof.
  rewrite New_big_step. unfold New_outcome.
  destruct (PyObject_New_ok e); cbn [negb].
  - destruct (malloc_ok e); cbn [negb].
    + destruct (X509V3_EXT_nconf _ _ _ _) as [ [ ex | ] q ];
        [ discriminate | ].
      intro H. injection H as <-.
      cbn [trace emit set_errors exception_from_error_queue].
      rewrite <- !app_assoc. eexists. split; reflexivity.
    + intro H. injection H as <-. cbn [trace emit].
      eexists. split; reflexivity.
  - intro H. injection H as <-. exists []. cbn [trace set_py_err].
    now rewrite app_nil_r.
Qed.

Lemma reachable_run (fuel : nat) a e w s :
  reachable a e w s -> reachable a e w (run fuel a e s).
Proof.
  revert s. induction fuel as [ | fuel IH ]; intros s H; [ exact H | ].
  rewrite run_S. destruct (stopped (st_pc s)); [ exact H | ].
  apply IH. now constructor.
Qed.

(** C10: at every statement of the constructor the ownership flag of the
    object under construction is unwritten (only before the assignment
    of line 140), false, or true; it is true only at the returning
    statement of the successful path and after it, when the object wraps
    an extension the interpreter produced.  The destructor of an object
    whose flag is false only deletes the object, and a failed
    construction frees no extension. *)
Theorem ownership_flag_discipline a e (w : world) s o :
  reachable a e w s ->
  st_self s = Some o ->
  (dealloc o = Undef /\
     (st_pc s = L136_if_self_NULL \/ st_pc s = L140_dealloc_0)
   \/ dealloc o = Def 0
   \/ (dealloc o = Def 1
       /\ (st_pc s = L171_return_self
           \/ (st_pc s = Returned /\ st_result s = Some o))
       /\ exists ex, x509_extension o = Def (Some ex)))
  /\ (forall ob w', dealloc ob = Def 0 ->
        crypto_X509Extension_dealloc ob w'
        = Some (emit Ev_PyObject_Del w'))
  /\ (forall w1,
        crypto_X509Extension_New a e w = Some (None, w1) ->
        exists added,
          trace w1 = trace w ++ added
          /\ existsb is_Ev_X509_EXTENSION_free added = false).
Proof.
  intros Hreach Hself. split; [ | split ].
  - pose proof (reachable_flag_invariant a e w s Hreach) as Hinv.
    unfold flag_invariant in Hinv.
    destruct (st_pc s) eqn:Hpc;
      try (rewrite Hinv in Hself; discriminate);
      try (right; left; now apply Hinv).
    + left. split; [ now apply Hinv | now left ].
    + left. split; [ now apply Hinv | now right ].
    + right. right. destruct (Hinv o Hself) as [ Hd Hx ].
      repeat split; [ exact Hd | now left | exact Hx ].
    + destruct (Hinv o Hself) as [ [ Hd _ ] | [ Hd [ Hr Hx ] ] ].
      * right. left. exact Hd.
      * right. right. repeat split; [ exact Hd | now right | exact Hx ].
  - exact dealloc_unowned.
  - exact (New_failure_frees_no_extension a e w).
Qed.

End Properties.

(** ** The criticality marker inside the value *)

(** Whatever the interpreter, a value that begins with the marker and a
    clear flag give the same call as the rest of the value and a set
    flag: the constructor cannot tell them apart. *)
Lemma marker_in_value_confuses_flag {lib : OpenSSL}
    (t v : list byte) sub iss (e : environment) (w : world) :
  crypto_X509Extension_New
    {| type_name := t; critical := 0; value := lit "critical," ++ v;
       subject := sub; issuer := iss |} e w
  = crypto_X509Extension_New
      {| type_name := t; critical := 1; value := v;
         subject := sub; issuer := iss |} e w.
Proof.
  rewrite !New_big_step. unfold New_outcome, value_passed, New_ctx.
  cbn [critical value type_name subject issuer Z.eqb].
  now rewrite (c_str_app _ v marker_NUL_free).
Qed.

Lemma library_honours_marker : honours_critical_marker Demo.library.
Proof.
  intros ctx name v q ex q' H.
  change (Demo.nconf ctx name v q = (Some ex, q')) in H.
  unfold Demo.nconf, Demo.v3_check_critical in H.
  destruct (starts_with (lit "critical,") v);
    repeat match type of H with
           | context [if ?b then _ else _] => destruct b
           end;
    inversion H; reflexivity.
Qed.

(** The printer keeps a name with a NUL byte whole, where the library's
    single-name printer shows the part before the NUL only. *)
Example san_nul_name_not_truncated :
  fst (Demo.item_d2i Demo.nul_name_der 21 Demo.GENERAL_NAMES_it [])
  = Some [GEN_DNS (Demo.ia5 Demo.nul_name)]
  /\ option_map fst
       (crypto_X509Extension_str (lib := Demo.library)
          (Demo.wrap (Demo.san_ext Demo.nul_name_der)) Demo.world0)
     = Some (Some (PyText (lit "DNS:safe.org" ++ [NUL] ++ lit "evil.org")))
  /\ Demo.name_print_text (GEN_DNS (Demo.ia5 Demo.nul_name))
     = lit "DNS:safe.org".
Proof. repeat split. Qed.

(** ** Instances on concrete inputs *)

Lemma san_name_written_length_exact_witness :
  exists w',
    crypto_X509Extension_str_subjectAltName (lib := Demo.library)
      (Demo.wrap (Demo.san_ext Demo.nul_name_der)) [] Demo.world0
    = Some (0, lit "DNS:" ++ Demo.nul_name, w')
    /\ BIO_puts [] (ASN1_STRING_data (Demo.ia5 Demo.nul_name))
       = lit "safe.org".
Proof.
  assert (Hwf : ASN1_STRING_wf (Demo.ia5 Demo.nul_name))
    by (unfold ASN1_STRING_wf; simpl; lia).
  destruct (@san_name_written_length_exact Demo.library
              (Demo.wrap (Demo.san_ext Demo.nul_name_der))
              (Demo.san_ext Demo.nul_name_der)
              {| ext_nid := NID_subject_alt_name;
                 it := Some Demo.GENERAL_NAMES_it; d2i := Demo.no_d2i |}
              [] (GEN_DNS (Demo.ia5 Demo.nul_name)) [] [] [] Demo.world0
              (lit "DNS:") (Demo.ia5 Demo.nul_name)
              eq_refl eq_refl eq_refl eq_refl Hwf) as [ H1 [ _ H3 ] ].
  eexists. split; [ exact H1 | ].
  apply (H3 (lit "safe.org") (lit "evil.org")); [ reflexivity | ].
  literal_NUL_free.
Defined.

Lemma san_entries_in_order_with_separators_witness :
  exists w',
    crypto_X509Extension_str_subjectAltName (lib := Demo.library)
      (Demo.wrap (Demo.san_ext Demo.example_der)) [] Demo.world0
    = Some (0,
            lit "email:a@example.com, DNS:example.com, URI:https://example.com",
            w').
Proof.
  eexists.
  exact (proj1 (@san_entries_in_order_with_separators Demo.library
                  (Demo.wrap (Demo.san_ext Demo.example_der))
                  (Demo.san_ext Demo.example_der)
                  {| ext_nid := NID_subject_alt_name;
                     it := Some Demo.GENERAL_NAMES_it; d2i := Demo.no_d2i |}
                  Demo.example_names [] [] Demo.world0
                  eq_refl eq_refl eq_refl)).
Defined.

Lemma New_passes_marked_value_witness :
  exists r w1 rest,
    crypto_X509Extension_New (lib := Demo.library)
      (Demo.args "basicConstraints" 1 "CA:TRUE") Demo.env_ok Demo.world0
    = Some (r, w1)
    /\ trace w1
       = Ev_X509V3_EXT_nconf
           (New_ctx (Demo.args "basicConstraints" 1 "CA:TRUE"))
           (lit "basicConstraints") (lit "critical,CA:TRUE") :: rest.
Proof.
  assert (Hv : NUL_free (value (Demo.args "basicConstraints" 1 "CA:TRUE")))
    by literal_NUL_free.
  destruct (@New_passes_marked_value Demo.library
              (Demo.args "basicConstraints" 1 "CA:TRUE") Demo.env_ok
              Demo.world0 eq_refl eq_refl Hv)
    as [ r [ w1 [ rest [ H1 [ H2 _ ] ] ] ] ].
  exists r, w1, rest. split; [ exact H1 | exact H2 ].
Defined.

(** A critical basicConstraints extension, built. *)
Example New_basicConstraints_critical :
  crypto_X509Extension_New (lib := Demo.library)
    (Demo.args "basicConstraints" 1 "CA:TRUE") Demo.env_ok Demo.world0
  = Some (Some (Demo.wrap (Demo.mk_ext Demo.oid_basic_constraints true
                             [x30; x03; x01; x01; xff])),
          {| ossl_errors := []; py_err := None;
             trace :=
               [Ev_X509V3_EXT_nconf
                  (New_ctx (Demo.args "basicConstraints" 1 "CA:TRUE"))
                  (lit "basicConstraints") (lit "critical,CA:TRUE");
                Ev_free] |}).
Proof. vm_compute. reflexivity. Qed.

Lemma critical_query_reflects_marker_witness :
  exists self w1,
    crypto_X509Extension_New (lib := Demo.library)
      (Demo.args "basicConstraints" 1 "CA:TRUE") Demo.env_ok Demo.world0
    = Some (Some self, w1)
    /\ crypto_X509Extension_get_critical self [] w1
       = Some (Some (PyLong 1), w1).
Proof.
  assert (Hv : NUL_free (value (Demo.args "basicConstraints" 1 "CA:TRUE")))
    by literal_NUL_free.
  eexists; eexists. split; [ exact New_basicConstraints_critical | ].
  exact (proj1 (@critical_query_reflects_marker Demo.library
                  (Demo.args "basicConstraints" 1 "CA:TRUE") Demo.env_ok
                  Demo.world0 _ _ library_honours_marker Hv
                  New_basicConstraints_critical _)).
Defined.

(** C4, as stated, fails: with the flag clear and the value
    "critical,CA:TRUE" the constructor succeeds and the query answers 1,
    not the flag. *)
Lemma critical_query_differs_from_flag :
  exists self w1,
    critical (Demo.args "basicConstraints" 0 "critical,CA:TRUE") = 0
    /\ crypto_X509Extension_New (lib := Demo.library)
         (Demo.args "basicConstraints" 0 "critical,CA:TRUE")
         Demo.env_ok Demo.world0
       = Some (Some self, w1)
    /\ crypto_X509Extension_get_critical self [] w1
       = Some (Some (PyLong 1), w1).
Proof.
  eexists; eexists. split; [ reflexivity | ].
  split; [ vm_compute; reflexivity | reflexivity ].
Qed.

(** C5: when [malloc] fails the constructor returns NULL after deleting
    the object, and Python's error indicator is left clear: no exception
    is raised, where the failure of the interpreter raises the Error. *)
Theorem New_malloc_failure_raises_nothing :
  crypto_X509Extension_New (lib := Demo.library)
    (Demo.args "basicConstraints" 1 "CA:TRUE")
    Demo.env_malloc_fails Demo.world0
  = Some (None,
          {| ossl_errors := []; py_err := None;
             trace := [Ev_PyObject_Del] |})
  /\ crypto_X509Extension_New (lib := Demo.library)
       (Demo.args "bogusExtensionName" 0 "x") Demo.env_ok Demo.world0
     = Some (None,
             {| ossl_errors := [];
                py_err :=
                  Some (crypto_Error [Demo.X509V3_R_UNKNOWN_EXTENSION_NAME]);
                trace :=
                  [Ev_X509V3_EXT_nconf
                     (New_ctx (Demo.args "bogusExtensionName" 0 "x"))
                     (lit "bogusExtensionName") (lit "x");
                   Ev_free; Ev_PyObject_Del] |}).
Proof. split; vm_compute; reflexivity. Qed.

Lemma str_dispatch_witness :
  crypto_X509Extension_str (lib := Demo.library)
    (Demo.wrap (Demo.san_ext Demo.example_der)) Demo.world0
  = san_path (lib := Demo.library)
      (Demo.wrap (Demo.san_ext Demo.example_der)) Demo.world0
  /\ crypto_X509Extension_str (lib := Demo.library)
       (Demo.wrap (Demo.mk_ext Demo.oid_basic_constraints true
                     [x30; x03; x01; x01; xff])) Demo.world0
     = generic_path (lib := Demo.library)
         (Demo.mk_ext Demo.oid_basic_constraints true
            [x30; x03; x01; x01; xff]) Demo.world0.
Proof.
  split.
  - apply (proj1 (@str_dispatch Demo.library
                    (Demo.wrap (Demo.san_ext Demo.example_der))
                    (Demo.san_ext Demo.example_der) Demo.world0 eq_refl)).
    reflexivity.
  - apply (proj2 (@str_dispatch Demo.library
                    (Demo.wrap (Demo.mk_ext Demo.oid_basic_constraints true
                                  [x30; x03; x01; x01; xff]))
                    (Demo.mk_ext Demo.oid_basic_constraints true
                       [x30; x03; x01; x01; xff]) Demo.world0 eq_refl)).
    vm_compute. discriminate.
Defined.

Lemma san_format_fails_iff_witness :
  exists r w',
    crypto_X509Extension_str (lib := Demo.library)
      (Demo.wrap (Demo.san_ext [x31; x00])) Demo.world0 = Some (r, w')
    /\ (r = None -> exists errs, py_err w' = Some (crypto_Error errs)).
Proof.
  destruct (@san_format_fails_iff Demo.library
              (Demo.wrap (Demo.san_ext [x31; x00]))
              (Demo.san_ext [x31; x00]) Demo.world0 eq_refl eq_refl)
    as [ r [ w' [ H1 [ _ [ H3 _ ] ] ] ] ].
  exists r, w'. split; assumption.
Defined.

Lemma get_data_length_exact_witness :
  crypto_X509Extension_get_data
    (Demo.wrap (Demo.mk_ext Demo.oid_basic_constraints false
                  [x04; x03; x61; x00; x62])) [] Demo.world0
  = Some (Some (PyBytes [x04; x03; x61; x00; x62]), Demo.world0).
Proof.
  assert (Hwf : ASN1_STRING_wf
                  (ext_value (Demo.mk_ext Demo.oid_basic_constraints false
                                [x04; x03; x61; x00; x62])))
    by (unfold ASN1_STRING_wf; simpl; lia).
  exact (proj1 (@get_data_length_exact
                  (Demo.wrap (Demo.mk_ext Demo.oid_basic_constraints false
                                [x04; x03; x61; x00; x62]))
                  (Demo.mk_ext Demo.oid_basic_constraints false
                     [x04; x03; x61; x00; x62]) Demo.world0 eq_refl Hwf)).
Defined.

Lemma san_format_empty_witness :
  exists w',
    crypto_X509Extension_str (lib := Demo.library)
      (Demo.wrap (Demo.san_ext [x30; x00])) Demo.world0
    = Some (Some (PyText []), w')
    /\ py_err w' = None.
Proof.
  exact (@san_format_empty Demo.library
           (Demo.wrap (Demo.san_ext [x30; x00])) (Demo.san_ext [x30; x00])
           {| ext_nid := NID_subject_alt_name;
              it := Some Demo.GENERAL_NAMES_it; d2i := Demo.no_d2i |}
           [] Demo.world0 eq_refl eq_refl eq_refl eq_refl).
Defined.

Lemma ownership_flag_discipline_witness :
  let a := Demo.args "basicConstraints" 1 "CA:TRUE" in
  let s := run (lib := Demo.library) 8 a Demo.env_ok
             (initial_state Demo.env_ok Demo.world0) in
  st_pc s = L150_if_malloc_NULL
  /\ exists o, st_self s = Some o /\ dealloc o = Def 0.
Proof.
  cbv zeta. split; [ reflexivity | ].
  eexists. split; [ reflexivity | ].
  destruct (@ownership_flag_discipline Demo.library
              (Demo.args "basicConstraints" 1 "CA:TRUE") Demo.env_ok
              Demo.world0 _ _
              (reachable_run 8 _ _ _ _ (reach_start _ _ _)) eq_refl)
    as [ [ [ H _ ] | [ H | [ H _ ] ] ] _ ].
  - discriminate H.
  - exact H.
  - discriminate H.
Defined.

(** * Further properties *)

(** ** The constructor as a machine *)

Lemma step_stopped {lib : OpenSSL} a e s :
  stopped (st_pc s) = true -> step a e s = s.
Proof.
  unfold step. destruct (st_pc s); intro H; try discriminate H; reflexivity.
Qed.

Lemma steps_stopped {lib : OpenSSL} n a e s :
  stopped (st_pc s) = true -> steps n a e s = s.
Proof.
  intro H. induction n as [ | n IH ]; [ reflexivity | ].
  cbn [steps]. now rewrite (step_stopped a e s H).
Qed.

Lemma run_steps {lib : OpenSSL} n a e s : run n a e s = steps n a e s.
Proof.
  revert s. induction n as [ | n IH ]; intro s; [ reflexivity | ].
  rewrite run_S. cbn [steps]. destruct (stopped (st_pc s)) eqn:H.
  - rewrite (step_stopped a e s H). symmetry. now apply steps_stopped.
  - apply IH.
Qed.

Lemma steps_add {lib : OpenSSL} n k a e s :
  steps (n + k) a e s = steps k a e (steps n a e s).
Proof.
  revert s. induction n as [ | n IH ]; intro s; [ reflexivity | ].
  cbn [Nat.add steps]. apply IH.
Qed.

Lemma steps_last {lib : OpenSSL} n a e s :
  steps (S n) a e s = step a e (steps n a e s).
Proof.
  replace (S n) with (n + 1)%nat by lia. now rewrite steps_add.
Qed.

Lemma reachable_steps {lib : OpenSSL} a e w s :
  reachable a e w s -> exists n, s = steps n a e (initial_state e w).
Proof.
  induction 1 as [ | s _ [ n -> ] ].
  - now exists 0%nat.
  - exists (S n). now rewrite steps_last.
Qed.

(** Every statement brings the machine nearer to its stop. *)
Lemma step_decreases {lib : OpenSSL} a e s :
  stopped (st_pc s) = false ->
  (remaining (st_pc (step a e s)) < remaining (st_pc s))%nat.
Proof.
  unfold step. destruct (st_pc s); intro H; try discriminate H;
    repeat match goal with
           | |- context [match ?x with _ => _ end] => destruct x
           | |- context [if ?x then _ else _] => destruct x
           end;
    cbn [st_pc goto remaining]; lia.
Qed.

Lemma steps_reach_stop {lib : OpenSSL} n a e s :
  (remaining (st_pc s) <= n)%nat ->
  stopped (st_pc (steps n a e s)) = true.
Proof.
  revert s. induction n as [ | n IH ]; intros s H.
  - cbn [steps]. destruct (st_pc s); cbn [remaining] in H;
      try lia; reflexivity.
  - destruct (stopped (st_pc s)) eqn:Hs.
    + now rewrite (steps_stopped _ a e s Hs).
    + cbn [steps]. apply IH.
      pose proof (step_decreases a e s Hs). lia.
Qed.

Lemma reachable_not_Fault {lib : OpenSSL} a e w s :
  reachable a e w s -> st_pc s <> Fault.
Proof.
  intros Hr Hf. destruct (reachable_steps a e w s Hr) as [ n -> ].
  destruct (run_returns a e w) as [ f [ Hrun [ Hpc _ ] ] ].
  rewrite run_steps in Hrun.
  destruct (Nat.le_gt_cases n 32) as [ Hle | Hgt ].
  - replace 32%nat with (n + (32 - n))%nat in Hrun by lia.
    rewrite steps_add, steps_stopped in Hrun by (now rewrite Hf).
    rewrite Hrun, Hpc in Hf. discriminate Hf.
  - replace n with (32 + (n - 32))%nat in Hf by lia.
    rewrite steps_add, Hrun, steps_stopped in Hf by (now rewrite Hpc).
    rewrite Hpc in Hf. discriminate Hf.
Qed.

Section More.

Context {lib : OpenSSL}.

(** X3: no state the constructor passes through is a fault: [self] is
    not dereferenced when NULL, no field is read before it is written,
    each [strcpy] stays inside [value_with_critical], and the buffer
    handed to the interpreter is NUL-terminated. *)
Theorem New_never_faults a e (w : world) s :
  reachable a e w s ->
  st_pc s <> Fault
  /\ (forall buf,
        st_value_with_critical s = Some buf ->
        (st_pc s = L155_strcpy_marker ->
         strcpy buf 0 (lit "critical,") <> None)
        /\ (st_pc s = L156_strcpy_value ->
            strcpy buf (strlen (lit "critical,")) (value a) <> None)
        /\ (st_pc s = L158_strcpy_value -> strcpy buf 0 (value a) <> None)
        /\ (st_pc s = L161_nconf -> read_c_string buf <> None)).
Proof.
  intro Hr. split; [ exact (reachable_not_Fault a e w s Hr) | ].
  intros buf Hbuf.
  pose proof (reachable_not_Fault a e w _ (reach_step a e w s Hr)) as Hnext.
  repeat split; intros Hpc Hnone; apply Hnext; unfold step;
    rewrite Hpc, Hbuf; try rewrite Hnone; try reflexivity.
  destruct (st_self s); reflexivity.
Qed.

(** X4: from its first statement the constructor has returned after 18
    statements at most, on every argument and in every environment;
    more fuel changes nothing, and the function's result is the state
    reached. *)
Theorem New_returns_within_18 a e (w : world) (k : nat) :
  st_pc (run 18 a e (initial_state e w)) = Returned
  /\ run (18 + k) a e (initial_state e w) = run 18 a e (initial_state e w)
  /\ crypto_X509Extension_New a e w
     = Some (st_result (run 18 a e (initial_state e w)),
             st_world (run 18 a e (initial_state e w))).
Proof.
  assert (Hstop : stopped (st_pc (run 18 a e (initial_state e w))) = true)
    by (rewrite run_steps; now apply steps_reach_stop).
  assert (Hpc : st_pc (run 18 a e (initial_state e w)) = Returned).
  { pose proof (reachable_not_Fault a e w _
                  (reachable_run 18 a e w _ (reach_start a e w))) as Hnf.
    destruct (st_pc (run 18 a e (initial_state e w)));
      try discriminate Hstop; [ reflexivity | now contradiction Hnf ]. }
  assert (Hmore : forall j, run (18 + j) a e (initial_state e w)
                            = run 18 a e (initial_state e w)).
  { intro j. rewrite !run_steps, steps_add.
    apply steps_stopped. now rewrite <- run_steps. }
  split; [ exact Hpc | split; [ apply Hmore | ] ].
  unfold crypto_X509Extension_New. cbv zeta.
  change 32%nat with (18 + 14)%nat. now rewrite Hmore, Hpc.
Qed.

(** X5: the content of fresh heap and stack memory has no part in the
    result: two environments that agree on which allocations succeed
    give the same return value and the same world. *)
Theorem New_ignores_uninitialised_memory a e1 e2 (w : world) :
  PyObject_New_ok e1 = PyObject_New_ok e2 ->
  malloc_ok e1 = malloc_ok e2 ->
  crypto_X509Extension_New a e1 w = crypto_X509Extension_New a e2 w.
Proof.
  intros Hp Hm. rewrite !New_big_step. unfold New_outcome.
  now rewrite Hp, Hm.
Qed.

(** X6: the constructor frees [value_with_critical] exactly once when it
    was allocated and never otherwise, deletes the object exactly once
    when it was allocated and construction failed, and never frees an
    extension; a returned object has not been deleted. *)
Theorem New_releases_temporaries a e (w : world) :
  exists r w1 added,
    crypto_X509Extension_New a e w = Some (r, w1)
    /\ trace w1 = trace w ++ added
    /\ count is_Ev_free added
       = (if PyObject_New_ok e && malloc_ok e then 1 else 0)%nat
    /\ count is_Ev_PyObject_Del added
       = match r with
         | Some _ => 0%nat
         | None => if PyObject_New_ok e then 1%nat else 0%nat
         end
    /\ count is_Ev_X509_EXTENSION_free added = 0%nat.
Proof.
  rewrite New_big_step. unfold New_outcome.
  destruct (PyObject_New_ok e); cbn [negb andb].
  - destruct (malloc_ok e); cbn [negb].
    + destruct (X509V3_EXT_nconf _ _ _ _) as [ [ ex | ] q ];
        eexists; eexists; eexists; (split; [ reflexivity | ]);
        cbn [trace emit set_errors exception_from_error_queue];
        rewrite <- ?app_assoc; (split; [ reflexivity | ]);
        repeat split.
    + eexists; eexists; exists [Ev_PyObject_Del].
      split; [ reflexivity | ]. repeat split.
  - eexists; eexists; exists []. split; [ reflexivity | ].
    cbn [trace set_py_err]. rewrite app_nil_r. repeat split.
Qed.

(** X7: dropping the last reference to an object the constructor
    returned frees the extension the interpreter built, exactly once and
    before the object itself is deleted. *)
Theorem New_then_destroy a e (w w1 : world) self :
  crypto_X509Extension_New a e w = Some (Some self, w1) ->
  exists ex q w2,
    X509V3_EXT_nconf (New_ctx a) (c_str (type_name a)) (value_passed a)
      (ossl_errors w) = (Some ex, q)
    /\ Py_XDECREF (Some self) w1 = Some (Some (set_refcnt 0 self), w2)
    /\ trace w2
       = trace w1
         ++ [Ev_X509_EXTENSION_free (Def (Some ex)); Ev_PyObject_Del]
    /\ py_err w2 = py_err w1.
Proof.
  intro H. destruct (New_success a e w w1 self H) as [ ex [ q [ Hn -> ] ] ].
  exists ex, q. eexists. split; [ exact Hn | ].
  split; [ reflexivity | ].
  cbn [trace emit py_err Z.eqb]. rewrite <- app_assoc. split; reflexivity.
Qed.

(** X8: [critical] is used as a truth value: any two non-zero values
    give the same result. *)
Theorem New_critical_truthiness t c1 c2 v sub iss e (w : world) :
  c1 <> 0 -> c2 <> 0 ->
  crypto_X509Extension_New
    {| type_name := t; critical := c1; value := v;
       subject := sub; issuer := iss |} e w
  = crypto_X509Extension_New
      {| type_name := t; critical := c2; value := v;
         subject := sub; issuer := iss |} e w.
Proof.
  intros H1 H2. rewrite !New_big_step.
  unfold New_outcome, value_passed, New_ctx.
  cbn [critical value type_name subject issuer].
  apply Z.eqb_neq in H1, H2. now rewrite H1, H2.
Qed.

(** X9: the data query on an object the constructor returned gives the
    payload of the extension the interpreter built, length-exact. *)
Theorem New_then_get_data a e (w w1 w2 : world) self :
  crypto_X509Extension_New a e w = Some (Some self, w1) ->
  exists ex q,
    X509V3_EXT_nconf (New_ctx a) (c_str (type_name a)) (value_passed a)
      (ossl_errors w) = (Some ex, q)
    /\ (0 <= ASN1_STRING_length (ext_value ex) ->
        crypto_X509Extension_get_data self [] w2
        = Some (Some (PyBytes (ASN1_STRING_range (ext_value ex))), w2)).
Proof.
  intro H. destruct (New_success a e w w1 self H) as [ ex [ q [ Hn -> ] ] ].
  exists ex, q. split; [ exact Hn | ]. intro Hlen.
  unfold crypto_X509Extension_get_data.
  cbn [PyArg_ParseTuple_none negb x509_extension].
  unfold PyBytes_FromStringAndSize, X509_EXTENSION_get_data.
  destruct (Z.ltb_spec (ASN1_STRING_length (ext_value ex)) 0);
    [ lia | reflexivity ].
Qed.

End More.

(** ** The printer and [str], further *)

Lemma entry_text_of_text_name {lib : OpenSSL} name prefix s :
  text_name name = Some (prefix, s) ->
  entry_text name = prefix ++ ASN1_STRING_range s.
Proof.
  destruct name; cbn [text_name]; intro H; try discriminate H;
    injection H as <- <-; reflexivity.
Qed.

Section MoreFormatting.

Context {lib : OpenSSL}.

(** X10: whatever the extension holds, the printer returns 0 or -1, only
    appends to the BIO it was given, appends nothing when it returns -1,
    and never sets a Python exception itself. *)
Theorem san_printer_appends self ext (bio : BIO) (w : world) :
  x509_extension self = Def (Some ext) ->
  exists rc added w',
    crypto_X509Extension_str_subjectAltName self bio w
    = Some (rc, bio ++ added, w')
    /\ (rc = 0 \/ rc = -1)
    /\ (rc = -1 -> added = [])
    /\ py_err w' = py_err w.
Proof.
  intro Hself.
  destruct (X509V3_EXT_get ext) as [ m | ] eqn:Hget.
  - destruct (decode_names m (ASN1_STRING_data (ext_value ext))
                (ASN1_STRING_length (ext_value ext)) (ossl_errors w))
      as [ [ names | ] q ] eqn:Hdec.
    + rewrite (str_subjectAltName_decoded _ _ _ _ _ bio w Hself Hget Hdec).
      exists 0, (render_names names). eexists.
      split; [ reflexivity | ]. split; [ now left | ].
      split; [ discriminate | reflexivity ].
    + rewrite (str_subjectAltName_undecodable _ _ _ _ bio w Hself Hget Hdec).
      exists (-1), []. eexists. rewrite app_nil_r.
      split; [ reflexivity | ]. split; [ now right | ].
      split; reflexivity.
  - rewrite (str_subjectAltName_no_method _ _ bio w Hself Hget).
    exists (-1), []. eexists. rewrite app_nil_r.
    split; [ reflexivity | ]. split; [ now right | ].
    split; reflexivity.
Qed.

(** X12: two email, DNS or URI entries are printed alike only when they
    are of the same kind and have the same byte range: a name is not
    confused with one that differs from it after a NUL byte. *)
Theorem print_name_injective (bio : BIO) n1 n2 p1 s1 p2 s2 :
  text_name n1 = Some (p1, s1) ->
  text_name n2 = Some (p2, s2) ->
  print_name bio n1 = print_name bio n2 ->
  p1 = p2 /\ ASN1_STRING_range s1 = ASN1_STRING_range s2.
Proof.
  intros H1 H2. rewrite !print_name_text.
  rewrite (entry_text_of_text_name n1 p1 s1 H1).
  rewrite (entry_text_of_text_name n2 p2 s2 H2).
  intro H. apply app_inv_head in H.
  destruct n1; cbn [text_name] in H1; try discriminate H1;
    injection H1 as <- <-;
    destruct n2; cbn [text_name] in H2; try discriminate H2;
    injection H2 as <- <-;
    try (cbn in H; discriminate H);
    (split; [ reflexivity | exact (app_inv_head _ _ _ H) ]).
Qed.

(** X13: the printer writes name bytes as they are, so the text does not
    determine the entries: one DNS name whose bytes hold ", DNS:" is
    printed like two DNS names. *)
Theorem san_rendering_ambiguous (bio : BIO) s s1 s2 :
  ASN1_STRING_range s
  = ASN1_STRING_range s1 ++ lit ", DNS:" ++ ASN1_STRING_range s2 ->
  let one := [GEN_DNS s] in
  let two := [GEN_DNS s1; GEN_DNS s2] in
  names_loop (Z.to_nat (sk_GENERAL_NAME_num one)) 0
    (sk_GENERAL_NAME_num one) one bio
  = names_loop (Z.to_nat (sk_GENERAL_NAME_num two)) 0
      (sk_GENERAL_NAME_num two) two bio.
Proof.
  intros H one two.
  rewrite (names_loop_all one bio), (names_loop_all two bio).
  unfold one, two, render_names. cbn [map join entry_text].
  rewrite H. change (lit ", DNS:") with (lit ", " ++ lit "DNS:").
  now rewrite <- !app_assoc.
Qed.


(** X15: on an extension that is not a subjectAltName, [str] returns
    NULL exactly when the library's printer reports 0; it then raises the
    Error with the queue the printer left and empties the queue, and
    hands out none of the text the printer may have written.  Otherwise
    it returns the printer's text and sets no exception. *)
Theorem generic_format_fails_iff self ext (w : world) :
  x509_extension self = Def (Some ext) ->
  OBJ_obj2nid (ext_object ext) <> NID_subject_alt_name ->
  let printed := X509V3_EXT_print_text ext 0 0 (ossl_errors w) in
  exists r w',
    crypto_X509Extension_str self w = Some (r, w')
    /\ (r = None <-> fst (fst printed) = 0)
    /\ (r = None ->
        py_err w' = Some (crypto_Error (snd printed))
        /\ ossl_errors w' = [])
    /\ (r <> None ->
        r = Some (PyText (snd (fst printed)))
        /\ py_err w' = py_err w
        /\ ossl_errors w' = snd printed).
Proof.
  intros Hself Hnid printed. rewrite (str_paths self ext w Hself).
  apply Z.eqb_neq in Hnid. rewrite Hnid. unfold generic_path.
  subst printed.
  destruct (X509V3_EXT_print_text ext 0 0 (ossl_errors w))
    as [ [ok text] q ].
  cbn [fst snd]. unfold finish_str.
  destruct (Z.eqb_spec ok 0) as [ Hok | Hok ];
    eexists; eexists; (split; [ reflexivity | ]); repeat split;
    try discriminate; try assumption; try congruence.
Qed.

End MoreFormatting.

(** X11: when every entry is an email, DNS or URI name, the library's
    single-name printer has no part in the text: the loop gives the same
    bytes with any two libraries. *)
Theorem san_text_names_bypass_library_printer
    (lib1 lib2 : OpenSSL) (names : GENERAL_NAMES) (bio : BIO) :
  Forall (fun name => text_name name <> None) names ->
  let num := sk_GENERAL_NAME_num names in
  names_loop (lib := lib1) (Z.to_nat num) 0 num names bio
  = names_loop (lib := lib2) (Z.to_nat num) 0 num names bio.
Proof.
  intros H num. subst num.
  rewrite (names_loop_all (lib := lib1) names bio).
  rewrite (names_loop_all (lib := lib2) names bio).
  unfold render_names. do 3 f_equal.
  induction H as [ | name names Hname _ IH ]; [ reflexivity | ].
  cbn [map]. rewrite IH. f_equal.
  destruct name; cbn [text_name] in Hname;
    try (now contradiction Hname); reflexivity.
Qed.

(** ** The accessors, further *)

(** X1: an accessor called with any argument returns NULL with TypeError
    set and has not looked at the wrapped extension: it does so even
    when the pointer is NULL or unwritten. *)
Theorem accessors_reject_arguments
    (lib : OpenSSL) (names : OBJ_names)
    self (arg : PyObject) (args : list PyObject) (w : world) :
  crypto_X509Extension_get_critical self (arg :: args) w
  = Some (None, set_py_err TypeError w)
  /\ crypto_X509Extension_get_short_name self (arg :: args) w
     = Some (None, set_py_err TypeError w)
  /\ crypto_X509Extension_get_data self (arg :: args) w
     = Some (None, set_py_err TypeError w).
Proof. repeat split. Qed.

(** X2: the short-name query returns the registry's name for the NID of
    the extension's OID, read as a C string, and leaves the world as it
    was; it depends on the OID only, not on criticality or payload.  The
    registry's answer is not tested: with no name for the NID, NULL is
    dereferenced. *)
Theorem get_short_name_by_oid
    (lib : OpenSSL) (names : OBJ_names) self ex (w : world) :
  x509_extension self = Def (Some ex) ->
  crypto_X509Extension_get_short_name self [] w
  = match OBJ_nid2sn (OBJ_obj2nid (ext_object ex)) with
    | Some name => Some (Some (PyBytes (c_str name)), w)
    | None => None
    end
  /\ (forall self' ex' w',
        x509_extension self' = Def (Some ex') ->
        ext_object ex' = ext_object ex ->
        option_map fst (crypto_X509Extension_get_short_name self' [] w')
        = option_map fst (crypto_X509Extension_get_short_name self [] w)).
Proof.
  intro Hself.
  assert (H : forall s e v,
             x509_extension s = Def (Some e) ->
             crypto_X509Extension_get_short_name s [] v
             = match OBJ_nid2sn (OBJ_obj2nid (ext_object e)) with
               | Some name => Some (Some (PyBytes (c_str name)), v)
               | None => None
               end).
  { intros s e v Hs. unfold crypto_X509Extension_get_short_name.
    cbn [PyArg_ParseTuple_none negb]. rewrite Hs.
    cbn [X509_EXTENSION_get_object option_map OBJ_obj2nid_ptr].
    destruct (OBJ_nid2sn (OBJ_obj2nid (ext_object e))) as [ name | ];
      [ | reflexivity ].
    cbn [PyBytes_FromString]. now rewrite firstn_strlen. }
  split; [ now apply H | ].
  intros self' ex' w' Hself' Hobj.
  rewrite (H self' ex' w' Hself'), (H self ex w Hself), Hobj.
  now destruct (OBJ_nid2sn (OBJ_obj2nid (ext_object ex))).
Qed.

(** ** Module initialisation *)




(** ** Further instances on concrete inputs *)

Lemma New_never_faults_witness :
  let s := run (lib := Demo.library) 10
             (Demo.args "basicConstraints" 1 "CA:TRUE") Demo.env_ok
             (initial_state Demo.env_ok Demo.world0) in
  st_pc s = L155_strcpy_marker
  /\ exists buf,
       st_value_with_critical s = Some buf
       /\ strcpy buf 0 (lit "critical,") <> None.
Proof.
  cbv zeta. split; [ reflexivity | ].
  eexists. split; [ reflexivity | ].
  destruct (@New_never_faults Demo.library
              (Demo.args "basicConstraints" 1 "CA:TRUE") Demo.env_ok
              Demo.world0 _
              (reachable_run 10 _ _ _ _ (reach_start _ _ _)))
    as [ _ H ].
  destruct (H _ eq_refl) as [ H155 _ ].
  exact (H155 eq_refl).
Defined.

Lemma New_ignores_uninitialised_memory_witness :
  crypto_X509Extension_New (lib := Demo.library)
    (Demo.args "basicConstraints" 0 "CA:FALSE") Demo.env_ok Demo.world0
  = crypto_X509Extension_New (lib := Demo.library)
      (Demo.args "basicConstraints" 0 "CA:FALSE")
      {| PyObject_New_ok := true; malloc_ok := true;
         heap_junk := fun n => if Nat.even n then x00 else x2c;
         stack_junk := New_ctx (Demo.args "basicConstraints" 0 "CA:FALSE") |}
      Demo.world0.
Proof.
  apply (@New_ignores_uninitialised_memory Demo.library); reflexivity.
Defined.

Lemma New_then_destroy_witness :
  exists ex q w2,
    Demo.nconf (New_ctx (Demo.args "basicConstraints" 1 "CA:TRUE"))
      (lit "basicConstraints") (lit "critical,CA:TRUE") [] = (Some ex, q)
    /\ trace w2
       = [Ev_X509V3_EXT_nconf
            (New_ctx (Demo.args "basicConstraints" 1 "CA:TRUE"))
            (lit "basicConstraints") (lit "critical,CA:TRUE");
          Ev_free;
          Ev_X509_EXTENSION_free (Def (Some ex)); Ev_PyObject_Del].
Proof.
  destruct (@New_then_destroy Demo.library _ _ _ _ _
              New_basicConstraints_critical)
    as [ ex [ q [ w2 [ Hn [ _ [ Ht _ ] ] ] ] ] ].
  exists ex, q, w2. split; [ exact Hn | exact Ht ].
Defined.

Lemma New_critical_truthiness_witness :
  crypto_X509Extension_New (lib := Demo.library)
    {| type_name := lit "basicConstraints"; critical := 1;
       value := lit "CA:TRUE"; subject := None; issuer := None |}
    Demo.env_ok Demo.world0
  = crypto_X509Extension_New (lib := Demo.library)
      {| type_name := lit "basicConstraints"; critical := -255;
         value := lit "CA:TRUE"; subject := None; issuer := None |}
      Demo.env_ok Demo.world0.
Proof.
  apply (@New_critical_truthiness Demo.library); lia.
Defined.

Lemma New_then_get_data_witness :
  crypto_X509Extension_get_data
    (Demo.wrap (Demo.mk_ext Demo.oid_basic_constraints true
                  [x30; x03; x01; x01; xff])) [] Demo.world0
  = Some (Some (PyBytes [x30; x03; x01; x01; xff]), Demo.world0).
Proof.
  destruct (@New_then_get_data Demo.library _ _ _ _ Demo.world0 _
              New_basicConstraints_critical) as [ ex [ q [ Hn Hd ] ] ].
  vm_compute in Hn. injection Hn as <- <-.
  apply Hd. simpl. lia.
Defined.

Lemma san_printer_appends_witness :
  exists rc added w',
    crypto_X509Extension_str_subjectAltName (lib := Demo.library)
      (Demo.wrap (Demo.san_ext Demo.example_der)) (lit "SAN=") Demo.world0
    = Some (rc, lit "SAN=" ++ added, w')
    /\ (rc = 0 \/ rc = -1).
Proof.
  destruct (@san_printer_appends Demo.library
              (Demo.wrap (Demo.san_ext Demo.example_der))
              (Demo.san_ext Demo.example_der) (lit "SAN=") Demo.world0
              eq_refl) as [ rc [ added [ w' [ H1 [ H2 _ ] ] ] ] ].
  exists rc, added, w'. split; assumption.
Defined.

Lemma san_text_names_bypass_library_printer_witness :
  names_loop (lib := Demo.library) 3 0 3 Demo.example_names []
  = names_loop (lib := silent_library) 3 0 3 Demo.example_names [].
Proof.
  apply (san_text_names_bypass_library_printer Demo.library silent_library
           Demo.example_names []).
  repeat constructor; discriminate.
Defined.

Lemma print_name_injective_witness :
  ASN1_STRING_range
    {| ASN1_STRING_length := 2; ASN1_STRING_type := 22;
       ASN1_STRING_data := lit "ab" ++ [NUL] |}
  = ASN1_STRING_range
      {| ASN1_STRING_length := 2; ASN1_STRING_type := 22;
         ASN1_STRING_data := lit "abc" |}.
Proof.
  exact (proj2 (@print_name_injective Demo.library []
                  (GEN_DNS {| ASN1_STRING_length := 2; ASN1_STRING_type := 22;
                              ASN1_STRING_data := lit "ab" ++ [NUL] |})
                  (GEN_DNS {| ASN1_STRING_length := 2; ASN1_STRING_type := 22;
                              ASN1_STRING_data := lit "abc" |})
                  _ _ _ _ eq_refl eq_refl eq_refl)).
Defined.

Lemma san_rendering_ambiguous_witness :
  names_loop (lib := Demo.library) 1 0 1
    [GEN_DNS (Demo.ia5 (lit "a.org, DNS:b.org"))] []
  = names_loop (lib := Demo.library) 2 0 2
      [GEN_DNS (Demo.ia5 (lit "a.org")); GEN_DNS (Demo.ia5 (lit "b.org"))]
      [].
Proof.
  exact (@san_rendering_ambiguous Demo.library []
           (Demo.ia5 (lit "a.org, DNS:b.org"))
           (Demo.ia5 (lit "a.org")) (Demo.ia5 (lit "b.org")) eq_refl).
Defined.


Lemma generic_format_fails_iff_witness :
  exists r w',
    crypto_X509Extension_str (lib := Demo.library)
      (Demo.wrap (Demo.mk_ext Demo.oid_basic_constraints true
                    [x30; x03; x01; x01; xff])) Demo.world0 = Some (r, w')
    /\ (r <> None -> r = Some (PyText (lit "CA:TRUE"))).
Proof.
  assert (Hnid : OBJ_obj2nid (OpenSSL := Demo.library)
                   (ext_object (Demo.mk_ext Demo.oid_basic_constraints true
                                  [x30; x03; x01; x01; xff]))
                 <> NID_subject_alt_name)
    by (vm_compute; discriminate).
  destruct (@generic_format_fails_iff Demo.library
              (Demo.wrap (Demo.mk_ext Demo.oid_basic_constraints true
                            [x30; x03; x01; x01; xff]))
              (Demo.mk_ext Demo.oid_basic_constraints true
                 [x30; x03; x01; x01; xff]) Demo.world0 eq_refl Hnid)
    as [ r [ w' [ H1 [ _ [ _ H4 ] ] ] ] ].
  exists r, w'. split; [ exact H1 | ].
  intro Hr. exact (proj1 (H4 Hr)).
Defined.

Lemma get_short_name_by_oid_witness :
  crypto_X509Extension_get_short_name
    (lib := Demo.library) (names := demo_names)
    (Demo.wrap (Demo.mk_ext Demo.oid_basic_constraints true
                  [x30; x03; x01; x01; xff])) [] Demo.world0
  = Some (Some (PyBytes (lit "basicConstraints")), Demo.world0).
Proof.
  exact (proj1 (get_short_name_by_oid Demo.library demo_names
                  (Demo.wrap (Demo.mk_ext Demo.oid_basic_constraints true
                                [x30; x03; x01; x01; xff]))
                  (Demo.mk_ext Demo.oid_basic_constraints true
                     [x30; x03; x01; x01; xff]) Demo.world0 eq_refl)).
Defined.

(** ** What the raised Error carries *)

(** X18: with both allocations granted the constructor succeeds exactly
    when the interpreter does.  On success Python's error indicator is
    untouched and the error queue is as the interpreter left it; when the
    interpreter fails, the Error raised carries exactly the queue the
    interpreter left, and the queue is emptied. *)
Theorem New_succeeds_iff_interpreter {lib : OpenSSL}
    a e (w : world) :
  PyObject_New_ok e = true ->
  malloc_ok e = true ->
  let answer :=
    X509V3_EXT_nconf (New_ctx a) (c_str (type_name a)) (value_passed a)
      (ossl_errors w) in
  exists r w1,
    crypto_X509Extension_New a e w = Some (r, w1)
    /\ (r = None <-> fst answer = None)
    /\ (r <> None ->
        py_err w1 = py_err w /\ ossl_errors w1 = snd answer)
    /\ (r = None ->
        py_err w1 = Some (crypto_Error (snd answer))
        /\ ossl_errors w1 = []).
Proof.
  intros Hp Hm answer. subst answer. rewrite New_big_step.
  unfold New_outcome. rewrite Hp, Hm. cbn [negb].
  destruct (X509V3_EXT_nconf _ _ _ _) as [ [ ex | ] q ]; cbn [fst snd];
    eexists; eexists; (split; [ reflexivity | ]); repeat split;
    try discriminate; try congruence.
Qed.

(** X19: on a subjectAltName extension with no registered descriptor the
    Error raised by [str] carries whatever the error queue held before
    the call, nothing when the queue was empty; on an undecodable payload
    it carries the queue the decoder left.  The queue is emptied in both
    cases. *)
Theorem san_error_content {lib : OpenSSL} self ext (w : world) :
  x509_extension self = Def (Some ext) ->
  OBJ_obj2nid (ext_object ext) = NID_subject_alt_name ->
  (X509V3_EXT_get ext = None ->
   exists w',
     crypto_X509Extension_str self w = Some (None, w')
     /\ py_err w' = Some (crypto_Error (ossl_errors w))
     /\ ossl_errors w' = [])
  /\ (forall m q,
        X509V3_EXT_get ext = Some m ->
        decode_names m (ASN1_STRING_data (ext_value ext))
          (ASN1_STRING_length (ext_value ext)) (ossl_errors w) = (None, q) ->
        exists w',
          crypto_X509Extension_str self w = Some (None, w')
          /\ py_err w' = Some (crypto_Error q)
          /\ ossl_errors w' = []).
Proof.
  intros Hself Hnid.
  rewrite (str_paths self ext w Hself), Hnid, Z.eqb_refl.
  unfold san_path. split.
  - intro Hget. rewrite (str_subjectAltName_no_method _ _ _ w Hself Hget).
    eexists. repeat split.
  - intros m q Hget Hdec.
    rewrite (str_subjectAltName_undecodable _ _ _ _ _ w Hself Hget Hdec).
    eexists. repeat split.
Qed.

Lemma New_succeeds_iff_interpreter_witness :
  exists w1,
    crypto_X509Extension_New (lib := Demo.library)
      (Demo.args "bogusExtensionName" 0 "x") Demo.env_ok Demo.world0
    = Some (None, w1)
    /\ py_err w1 = Some (crypto_Error [Demo.X509V3_R_UNKNOWN_EXTENSION_NAME]).
Proof.
  destruct (@New_succeeds_iff_interpreter Demo.library
              (Demo.args "bogusExtensionName" 0 "x") Demo.env_ok Demo.world0
              eq_refl eq_refl) as [ r [ w1 [ H1 [ H2 [ _ H4 ] ] ] ] ].
  assert (Hr : r = None) by (apply H2; reflexivity).
  exists w1. rewrite Hr in H1. split; [ exact H1 | ].
  exact (proj1 (H4 Hr)).
Defined.

Lemma san_error_content_witness :
  exists w',
    crypto_X509Extension_str (lib := Demo.library)
      (Demo.wrap (Demo.san_ext [x31; x00])) Demo.world0 = Some (None, w')
    /\ py_err w' = Some (crypto_Error [Demo.ASN1_R_WRONG_TAG]).
Proof.
  destruct (proj2 (@san_error_content Demo.library
                     (Demo.wrap (Demo.san_ext [x31; x00]))
                     (Demo.san_ext [x31; x00]) Demo.world0
                     eq_refl eq_refl)
              {| ext_nid := NID_subject_alt_name;
                 it := Some Demo.GENERAL_NAMES_it; d2i := Demo.no_d2i |}
              [Demo.ASN1_R_WRONG_TAG] eq_refl eq_refl)
    as [ w' [ H1 [ H2 _ ] ] ].
  exists w'. split; assumption.
Defined.
